(** * Analytics views of the Plane API server

    A shallow embedding of [apiserver/plane/api/views/analytic.py]: the four
    analytics request handlers and [AnalyticViewViewset.perform_create],
    together with the slice of the Django ORM, of the REST framework and of
    the task queue that they drive.

    Python values are a small tagged union, the database is a record of
    tables, a lazy [QuerySet] is a function of the database, and a handler
    runs in a writer/exception monad whose log records every observable
    effect (a query sent to the database, an exception handed to the error
    tracker, a line printed, a job put on the task queue). *)

From Stdlib Require Import ZArith Lia.
From stdpp Require Import base option list strings gmap sorting.

#[local] Open Scope string_scope.
#[local] Open Scope list_scope.
#[local] Open Scope nat_scope.
#[local] Set Warnings "-clear-no-such-hyp".

(** ** Python values *)

(** The values a query string, a JSON body or a JSONField can hold. *)
#[local] Unset Elimination Schemes.
Inductive pyvalue : Type :=
| VNone
| VBool (b : bool)
| VInt (n : Z)
| VStr (s : string)
| VList (l : list pyvalue)
| VDict (l : list (string * pyvalue)).
#[local] Set Elimination Schemes.

(** Python truthiness, as tested by [not x]. *)
Definition truthy (v : pyvalue) : bool :=
  match v with
  | VNone => false
  | VBool b => b
  | VInt n => negb (n =? 0)%Z
  | VStr s => negb (String.eqb s "")
  | VList l => match l with [] => false | _ => true end
  | VDict l => match l with [] => false | _ => true end
  end.

(** [x in [a, b, ...]] for a value against string literals. *)
Definition py_in (v : pyvalue) (names : list string) : bool :=
  match v with
  | VStr s => bool_decide (s ∈ names)
  | _ => false
  end.

(** [x == "literal"]. *)
Definition py_eq_str (v : pyvalue) (name : string) : bool :=
  match v with
  | VStr s => bool_decide (s = name)
  | _ => false
  end.

(** ** Exceptions and observable effects *)

Inductive table : Type :=
| IssueTable | AnalyticViewTable | WorkspaceTable | StateTable | LabelTable.

(** [Model.DoesNotExist] and [Model.MultipleObjectsReturned] are classes of
    the model they belong to; every other exception is told by its text. *)
Inductive exn : Type :=
| DoesNotExist (model : table)
| MultipleObjectsReturned (model : table)
| IntegrityError (msg : string)
| OtherException (msg : string).

Inductive event : Type :=
| Queried (t : table)
| Inserted (t : table)
| Captured (e : exn)
| Printed (e : exn)
| Enqueued (email : string) (data : pyvalue) (slug : string).

(** A computation logs events and either raises or returns. *)
Definition M (A : Type) : Type := list event * (exn + A).

Definition ret {A} (a : A) : M A := ([], inr a).

Definition raise {A} (e : exn) : M A := ([], inl e).

Definition tell (ev : event) : M unit := ([ev], inr ()).

Definition lift {A} (r : exn + A) : M A := ([], r).

Definition bind {A B} (m : M A) (k : A → M B) : M B :=
  match m with
  | (log, inl e) => (log, inl e)
  | (log, inr a) => let '(log', r) := k a in (log ++ log', r)
  end.

Notation "'do' x <- m ; k" := (bind m (λ x, k))
  (at level 10, x name, m at level 100, k at level 200).
Notation "'do_' m ; k" := (bind m (λ _, k))
  (at level 10, m at level 100, k at level 200).

(** [try: body except Exception as e: handler(e)]: nothing escapes. *)
Definition try_except {A} (body : M A) (handler : exn → list event * A)
  : list event * A :=
  match body with
  | (log, inr a) => (log, a)
  | (log, inl e) => let '(log', a) := handler e in (log ++ log', a)
  end.

(** [sentry_sdk.capture_exception]. *)
Definition capture_exception (e : exn) : list event := [Captured e].

(** ** Data model *)

Record datetime : Type := {
  year : Z; month : Z; day : Z; hour : Z; minute : Z; second : Z
}.

(** [django.db.models.functions.TruncMonth]. *)
Definition TruncMonth (t : datetime) : datetime :=
  {| year := year t; month := month t; day := 1;
     hour := 0; minute := 0; second := 0 |}.

(** Chronological order, field by field. *)
Definition datetime_le (a b : datetime) : Prop :=
  (year a < year b ∨ (year a = year b ∧
  (month a < month b ∨ (month a = month b ∧
  (day a < day b ∨ (day a = day b ∧
  (hour a < hour b ∨ (hour a = hour b ∧
  (minute a < minute b ∨ (minute a = minute b ∧
   second a ≤ second b))))))))))%Z.

Record Workspace : Type := { workspace_id : string; workspace_slug : string }.

Record User : Type := { user_id : string; email : string }.

Record State : Type := {
  state_name : string; state_group : string; state_color : string;
  state_workspace_id : string; state_project_id : string
}.

Record Label : Type := {
  label_name : string; label_color : string;
  label_workspace_id : string; label_project_id : string
}.

(** An issue row with its to-one relations resolved ([state], [created_by])
    and its to-many link rows listed by the id of the linked cycle or
    module ([issue_cycle], [issue_module]). *)
Record Issue : Type := {
  issue_id : string;
  issue_workspace_id : string;
  project_id : string;
  state : option State;
  issue_cycle : list string;
  issue_module : list string;
  completed_at : option datetime;
  created_by : option User
}.

Record AnalyticView : Type := {
  pk : string;
  view_workspace_id : string;
  view_name : string;
  query : gmap string pyvalue;
  query_dict : gmap string pyvalue
}.

Record Database : Type := {
  Issue_rows : list Issue;
  AnalyticView_rows : list AnalyticView;
  Workspace_rows : list Workspace;
  State_rows : list State;
  Label_rows : list Label
}.

(** The surroundings of one request: the database (or the error every query
    raises while it is unreachable), the task broker (or the error
    publishing raises), and the key type of the models ([plane.db.models],
    not part of this module), given by the error that converting an id to
    a key raises when the id is malformed. *)
Record World : Type := {
  database : exn + Database;
  broker : option exn;
  key_error : string → option exn
}.

(** ** The ORM *)

(** A queryset is lazy: it is a query, run against the database each time
    it is evaluated. *)
Definition QuerySet (A : Type) : Type := Database → list A.

(** The workspace a foreign key points at. *)
Definition workspace_of (d : Database) (wid : string) : option Workspace :=
  head (filter (λ ws, workspace_id ws = wid) (Workspace_rows d)).

(** The lookup [workspace__slug=slug] on a row whose foreign key is [wid]. *)
Definition workspace__slug (d : Database) (wid slug : string) : Prop :=
  workspace_slug <$> workspace_of d wid = Some slug.

#[global] Instance workspace__slug_dec d wid slug :
  Decision (workspace__slug d wid slug).
Proof. unfold workspace__slug. apply _. Defined.

(** The lookup [state__group__in=groups]: a row without a state joins
    nothing. *)
Definition state__group__in (groups : list string) (i : Issue) : Prop :=
  match state i with
  | Some s => state_group s ∈ groups
  | None => False
  end.

#[global] Instance state__group__in_dec groups i :
  Decision (state__group__in groups i).
Proof. unfold state__group__in. destruct (state i); apply _. Defined.

(** [qs.filter(...)] on columns of the row itself or of a to-one relation
    resolved in the row. *)
Definition qs_filter {A} (P : A → Prop) `{!∀ x, Decision (P x)}
    (qs : QuerySet A) : QuerySet A :=
  λ d, filter P (qs d).

(** [qs.filter(workspace__slug=slug)]: the join with the workspace table
    through the row's foreign key [fk]. *)
Definition qs_filter_workspace__slug {A} (fk : A → string) (slug : string)
    (qs : QuerySet A) : QuerySet A :=
  λ d, filter (λ x, workspace__slug d (fk x) slug) (qs d).

(** [qs.filter(<key>__in=ids)] converts every id to a key as the queryset is
    built, before any query is sent: the first malformed id raises. An
    empty list, for which the handlers build no filter, raises nothing. The
    rows such a filter keeps are given by [qs_filter] and
    [qs_filter_related_in]. *)
Definition clean_ids (w : World) (ids : list string) : M unit :=
  match head (omap (key_error w) ids) with
  | Some e => raise e
  | None => ret ()
  end.

(** [qs.filter(rel__fk__in=ids)] across a to-many relation: the join keeps
    one row per link row whose key is among [ids]. *)
Definition qs_filter_related_in (rel : Issue → list string)
    (ids : list string) (qs : QuerySet Issue) : QuerySet Issue :=
  λ d, i ← qs d; (λ _, i) <$> filter (λ c, c ∈ ids) (rel i).

(** Evaluating a queryset sends a query to the database. *)
Definition fetch {A} (w : World) (t : table) (qs : QuerySet A) : M (list A) :=
  match database w with
  | inl e => raise e
  | inr d => do_ tell (Queried t); ret (qs d)
  end.

(** [qs.count()]. *)
Definition qs_count {A} (w : World) (t : table) (qs : QuerySet A) : M nat :=
  do rows <- fetch w t qs; ret (length rows).

(** [qs.get()]. *)
Definition qs_get {A} (w : World) (t : table) (qs : QuerySet A) : M A :=
  do rows <- fetch w t qs;
  match rows with
  | [] => raise (DoesNotExist t)
  | [x] => ret x
  | _ => raise (MultipleObjectsReturned t)
  end.

(** [qs.values(key).annotate(n=Count(...))]: one row per distinct key, with
    the number of rows that carry it. *)
Definition group_count {K} `{EqDecision K} (ks : list K) : list (K * nat) :=
  (λ k, (k, length (filter (λ k', k' = k) ks))) <$> remove_dups ks.

(** [Issue.objects], [State.objects], ... *)
Definition Issue_objects : QuerySet Issue := Issue_rows.
Definition AnalyticView_objects : QuerySet AnalyticView := AnalyticView_rows.
Definition Workspace_objects : QuerySet Workspace := Workspace_rows.
Definition State_objects : QuerySet State := State_rows.
Definition Label_objects : QuerySet Label := Label_rows.

(** ** Requests and responses *)

(** [request.data] is the parsed body, whatever JSON value it is, or the
    error that parsing the body raises when it is read. *)
Record Request : Type := {
  GET : list (string * string);
  data : exn + pyvalue;
  user : User
}.

(** [QueryDict.getlist(key)]: every value given for the key, in order. *)
Definition getlist (q : list (string * string)) (key : string) : list string :=
  snd <$> filter (λ p, p.1 = key) q.

(** [QueryDict.get(key, default)]: the last value given for the key. *)
Definition QueryDict_get (q : list (string * string)) (key : string)
    (dflt : pyvalue) : pyvalue :=
  match last (getlist q key) with
  | Some v => VStr v
  | None => dflt
  end.

(** [dict.get(key, default)]. *)
Definition dict_get (m : gmap string pyvalue) (key : string)
    (dflt : pyvalue) : pyvalue :=
  match m !! key with
  | Some v => v
  | None => dflt
  end.

(** The dict the items of a [VDict] stand for. *)
Definition py_dict (items : list (string * pyvalue)) : gmap string pyvalue :=
  list_to_map items.

Definition AttributeError : exn := OtherException "AttributeError".

(** [value.get(key, default)] on a parsed body: a dict answers; a list, a
    string, a number or [None] has no [get]. *)
Definition py_get (value : pyvalue) (key : string) (dflt : pyvalue)
    : M pyvalue :=
  match value with
  | VDict items => ret (dict_get (py_dict items) key dflt)
  | _ => raise AttributeError
  end.

(** [request.data.get(key, default)]. *)
Definition request_data_get (request : Request) (key : string)
    (dflt : pyvalue) : M pyvalue :=
  do data <- lift (data request);
  py_get data key dflt.

Definition HTTP_200_OK : Z := 200.
Definition HTTP_400_BAD_REQUEST : Z := 400.

(** Modelled from the spec: the value [build_graph_plot]
    ([plane.utils.analytics_plot], not part of this module) returns. The spec
    calls it a distribution: counts of issues grouped by one axis, optionally
    sub-grouped by a second (the segment). Each group holds its rows; a row
    carries the group, the sub-group when there is one, and a count. *)
Record plot_row : Type := {
  dimension : string;
  segment : option string;
  row_count : nat
}.

Definition Distribution : Type := list (string * list plot_row).

(** [colors]: the empty [dict()], or the rows of a [values(key, "color")]
    queryset. *)
Inductive Colors : Type :=
| colors_dict
| colors_values (key : string) (rows : list (string * string)).

Inductive Body : Type :=
| error_body (error : string)
| message_body (message : string)
| analytics_body (total : nat) (distribution : Distribution) (colors : Colors)
| saved_body (total : nat) (distribution : Distribution)
| default_body (total_issues open_issues : nat)
    (issue_completed_month_wise : list (datetime * nat))
    (most_issue_created_user : list (string * nat)).

Record Response : Type := mkResponse { response_data : Body; status : Z }.

(** Truthiness of a Python list. *)
Definition list_truthy {A} (l : list A) : bool :=
  match l with [] => false | _ => true end.

#[global] Instance datetime_eq_dec : EqDecision datetime.
Proof. solve_decision. Defined.

#[global] Instance datetime_le_dec : RelDecision datetime_le.
Proof. intros a b. unfold datetime_le. apply _. Defined.

(** [order_by("month")] and [order_by("-record_count")] on grouped rows. *)
Definition month_le (a b : datetime * nat) : Prop := datetime_le a.1 b.1.

Definition record_count_ge (a b : string * nat) : Prop := b.2 ≤ a.2.

#[global] Instance month_le_dec : RelDecision month_le.
Proof. intros a b. unfold month_le. apply _. Defined.

#[global] Instance record_count_ge_dec : RelDecision record_count_ge.
Proof. intros a b. unfold record_count_ge. apply _. Defined.

(** ** The handlers *)

Definition validation_error : Response :=
  mkResponse (error_body "x-axis and y-axis dimensions are required")
    HTTP_400_BAD_REQUEST.

Definition generic_error : Response :=
  mkResponse (error_body "Something went wrong please try again later")
    HTTP_400_BAD_REQUEST.

(** A [values(key, "color")] queryset not yet evaluated. *)
Inductive LazyColors : Type :=
| lazy_dict
| lazy_values (t : table) (key : string) (qs : QuerySet (string * string)).

(** The response is rendered against the database the handler queried: its
    lazy querysets are evaluated then. *)
Definition render_colors (w : World) (c : LazyColors) : M Colors :=
  match c with
  | lazy_dict => ret colors_dict
  | lazy_values t key qs => do rows <- fetch w t qs; ret (colors_values key rows)
  end.

Definition State_values (key : string) (s : State) : string * string :=
  (if bool_decide (key = "name") then state_name s else state_group s,
   state_color s).

Definition Label_values (l : Label) : string * string :=
  (label_name l, label_color l).

Module AnalyticsEndpoint.

(** The issues the request selects (the filters of [get]). *)
Definition queryset (request : Request) (slug : string) : QuerySet Issue :=
  let project_ids := getlist (GET request) "project" in
  let cycle_ids := getlist (GET request) "cycle" in
  let module_ids := getlist (GET request) "module" in
  let queryset :=
    qs_filter_workspace__slug issue_workspace_id slug Issue_objects in
  let queryset :=
    if list_truthy project_ids
    then qs_filter (λ i, project_id i ∈ project_ids) queryset
    else queryset in
  let queryset :=
    if list_truthy cycle_ids
    then qs_filter_related_in issue_cycle cycle_ids queryset
    else queryset in
  let queryset :=
    if list_truthy module_ids
    then qs_filter_related_in issue_module module_ids queryset
    else queryset in
  queryset.

(** The colour legend for a state or label axis. *)
Definition colors (request : Request) (slug : string) (x_axis : pyvalue)
    : LazyColors :=
  let project_ids := getlist (GET request) "project" in
  let colors := lazy_dict in
  let colors :=
    if py_in x_axis ["state__name"; "state__group"] then
      let key := if py_eq_str x_axis "state__name" then "name" else "group" in
      if list_truthy project_ids then
        lazy_values StateTable key
          (λ d, State_values key <$>
             qs_filter (λ s, state_project_id s ∈ project_ids)
               (qs_filter_workspace__slug state_workspace_id slug
                  State_objects) d)
      else
        lazy_values StateTable key
          (λ d, State_values key <$>
             qs_filter_workspace__slug state_workspace_id slug
               State_objects d)
    else colors in
  let colors :=
    if py_in x_axis ["labels__name"] then
      if list_truthy project_ids then
        lazy_values LabelTable "name"
          (λ d, Label_values <$>
             qs_filter (λ l, label_project_id l ∈ project_ids)
               (qs_filter_workspace__slug label_workspace_id slug
                  Label_objects) d)
      else
        lazy_values LabelTable "name"
          (λ d, Label_values <$>
             qs_filter_workspace__slug label_workspace_id slug
               Label_objects d)
    else colors in
  colors.

(** The filters build the queryset, whose rows are [queryset], and raise on
    a malformed id. [build_graph_plot] is given the queryset and evaluates
    it: it is taken as one query followed by a function of the rows. *)
Definition get
    (build_graph_plot :
       list Issue → pyvalue → pyvalue → pyvalue → exn + Distribution)
    (w : World) (request : Request) (slug : string)
    : list event * Response :=
  try_except
    (let x_axis := QueryDict_get (GET request) "x_axis" (VBool false) in
     let y_axis := QueryDict_get (GET request) "y_axis" (VBool false) in
     if negb (truthy x_axis) || negb (truthy y_axis) then
       ret validation_error
     else
       let segment := QueryDict_get (GET request) "segment" (VBool false) in
       do_ clean_ids w (getlist (GET request) "project");
       do_ clean_ids w (getlist (GET request) "cycle");
       do_ clean_ids w (getlist (GET request) "module");
       let queryset := queryset request slug in
       do total_issues <- qs_count w IssueTable queryset;
       do distribution <-
         (do rows <- fetch w IssueTable queryset;
          lift (build_graph_plot rows x_axis y_axis segment));
       let colors := colors request slug x_axis in
       do colors <- render_colors w colors;
       ret (mkResponse (analytics_body total_issues distribution colors)
              HTTP_200_OK))
    (λ e, (capture_exception e, generic_error)).

End AnalyticsEndpoint.

(** Modelled from the spec: [AnalyticViewSerializer]
    ([plane.api.serializers]) is not part of this module. A serializer holds
    the fields validated from the request body; [save] is the REST
    framework's: its keyword arguments are laid over the validated fields
    and the row is created from the result, so on create the workspace is
    the one injected by the server. *)
Record Serializer : Type := { validated_data : gmap string pyvalue }.

(** The workspace of a new row: the key given as [workspace_id], which is
    set last, or else the one given as [workspace]. *)
Definition workspace_field (fields : gmap string pyvalue) : option pyvalue :=
  match fields !! "workspace_id" with
  | Some v => Some v
  | None => fields !! "workspace"
  end.

(** [AnalyticView.objects.create] with the fields as keyword arguments. *)
Definition AnalyticView_objects_create (w : World) (new_pk : string)
    (fields : gmap string pyvalue) : M Database :=
  match database w with
  | inl e => raise e
  | inr d =>
      match workspace_field fields with
      | Some (VStr wid) =>
          if bool_decide (new_pk ∈ pk <$> AnalyticView_rows d) then
            raise (IntegrityError "analytic_views.id")
          else
            let row :=
              {| pk := new_pk;
                 view_workspace_id := wid;
                 view_name :=
                   match fields !! "name" with Some (VStr n) => n | _ => "" end;
                 query :=
                   match fields !! "query" with
                   | Some (VDict l) => list_to_map l
                   | _ => ∅
                   end;
                 query_dict :=
                   match fields !! "query_dict" with
                   | Some (VDict l) => list_to_map l
                   | _ => ∅
                   end |} in
            do_ tell (Inserted AnalyticViewTable);
            ret {| Issue_rows := Issue_rows d;
                   AnalyticView_rows := AnalyticView_rows d ++ [row];
                   Workspace_rows := Workspace_rows d;
                   State_rows := State_rows d;
                   Label_rows := Label_rows d |}
      | _ => raise (IntegrityError "analytic_views.workspace_id")
      end
  end.

Definition serializer_save (w : World) (new_pk : string)
    (serializer : Serializer) (kwargs : gmap string pyvalue) : M Database :=
  let validated_data := kwargs ∪ validated_data serializer in
  AnalyticView_objects_create w new_pk validated_data.

Module AnalyticViewViewset.

(** [new_pk] is the key drawn for the new row. *)
Definition perform_create (w : World) (new_pk : string)
    (serializer : Serializer) (slug : string) : M Database :=
  do workspace <-
    qs_get w WorkspaceTable
      (qs_filter (λ ws, workspace_slug ws = slug) Workspace_objects);
  serializer_save w new_pk serializer
    {[ "workspace_id" := VStr (workspace_id workspace) ]}.

(** [super().get_queryset()] is every row of the model; [filter_queryset]
    is the REST framework's, which applies the filter backends of the view
    to the queryset it is given. *)
Definition get_queryset
    (filter_queryset : QuerySet AnalyticView → QuerySet AnalyticView)
    (slug : string) : QuerySet AnalyticView :=
  filter_queryset
    (qs_filter_workspace__slug view_workspace_id slug AnalyticView_objects).

End AnalyticViewViewset.

Module SavedAnalyticEndpoint.

Definition view_does_not_exist : Response :=
  mkResponse (error_body "Analytic View Does not exist")
    HTTP_400_BAD_REQUEST.

(** [Issue_objects_filter] is [Issue.objects.filter] with a stored filter as
    its keyword arguments: the ORM either rejects the lookups or builds a
    queryset. [analytic_id] is an argument of the URL path, taken as a key
    the route has converted; the ids of a query string are raw strings. *)
Definition get
    (Issue_objects_filter : gmap string pyvalue → exn + QuerySet Issue)
    (build_graph_plot :
       list Issue → pyvalue → pyvalue → pyvalue → exn + Distribution)
    (w : World) (request : Request) (slug analytic_id : string)
    : list event * Response :=
  try_except
    (do analytic_view <-
       qs_get w AnalyticViewTable
         (qs_filter_workspace__slug view_workspace_id slug
            (qs_filter (λ v, pk v = analytic_id) AnalyticView_objects));
     do queryset <- lift (Issue_objects_filter (query analytic_view));
     let x_axis := dict_get (query_dict analytic_view) "x_axis" (VBool false) in
     let y_axis := dict_get (query_dict analytic_view) "y_axis" (VBool false) in
     if negb (truthy x_axis) || negb (truthy y_axis) then
       ret validation_error
     else
       let segment := QueryDict_get (GET request) "segment" (VBool false) in
       do distribution <-
         (do rows <- fetch w IssueTable queryset;
          lift (build_graph_plot rows x_axis y_axis segment));
       do total_issues <- qs_count w IssueTable queryset;
       ret (mkResponse (saved_body total_issues distribution) HTTP_200_OK))
    (λ e, match e with
          | DoesNotExist AnalyticViewTable => ([], view_does_not_exist)
          | _ => (capture_exception e, generic_error)
          end).

End SavedAnalyticEndpoint.

(** [analytic_export_task.delay(email=, data=, slug=)]: the job is published
    to the broker, or publishing raises. *)
Definition analytic_export_task_delay (w : World) (email : string)
    (data : pyvalue) (slug : string) : M unit :=
  match broker w with
  | Some e => raise e
  | None => tell (Enqueued email data slug)
  end.

Module ExportAnalyticsEndpoint.

Definition post (w : World) (request : Request) (slug : string)
    : list event * Response :=
  try_except
    (do x_axis <- request_data_get request "x_axis" (VBool false);
     do y_axis <- request_data_get request "y_axis" (VBool false);
     if negb (truthy x_axis) || negb (truthy y_axis) then
       ret validation_error
     else
       do data <- lift (data request);
       do_ analytic_export_task_delay w (email (user request)) data slug;
       ret (mkResponse
              (message_body
                 ("Once the export is ready it will be emailed to you at "
                  +:+ email (user request)))
              HTTP_200_OK))
    (λ e, (capture_exception e, generic_error)).

End ExportAnalyticsEndpoint.

Module DefaultAnalyticsEndpoint.

(** The issues the request selects (the filters of [get]). *)
Definition queryset (request : Request) (slug : string) : QuerySet Issue :=
  let queryset :=
    qs_filter_workspace__slug issue_workspace_id slug Issue_objects in
  let project_ids := getlist (GET request) "project" in
  let cycle_ids := getlist (GET request) "cycle" in
  let module_ids := getlist (GET request) "module" in
  let queryset :=
    if list_truthy project_ids
    then qs_filter (λ i, project_id i ∈ project_ids) queryset
    else queryset in
  let queryset :=
    if list_truthy cycle_ids
    then qs_filter_related_in issue_cycle cycle_ids queryset
    else queryset in
  let queryset :=
    if list_truthy module_ids
    then qs_filter_related_in issue_module module_ids queryset
    else queryset in
  queryset.

Definition open_issues (queryset : QuerySet Issue) : QuerySet Issue :=
  qs_filter (state__group__in ["backlog"; "unstarted"; "started"]) queryset.

Definition issue_completed_month_wise (queryset : QuerySet Issue)
    : QuerySet (datetime * nat) :=
  λ d,
    let completed := qs_filter (λ i, is_Some (completed_at i)) queryset d in
    let months := omap (λ i, TruncMonth <$> completed_at i) completed in
    merge_sort month_le (group_count months).

Definition most_issue_created_user (queryset : QuerySet Issue)
    : QuerySet (string * nat) :=
  λ d,
    let created := qs_filter (λ i, is_Some (created_by i)) queryset d in
    let emails := omap (λ i, email <$> created_by i) created in
    merge_sort record_count_ge (group_count emails).

(** The filters build the queryset, whose rows are [queryset], and raise on
    a malformed id. *)
Definition get (w : World) (request : Request) (slug : string)
    : list event * Response :=
  try_except
    (do_ clean_ids w (getlist (GET request) "project");
     do_ clean_ids w (getlist (GET request) "cycle");
     do_ clean_ids w (getlist (GET request) "module");
     let queryset := queryset request slug in
     do total_issues <- qs_count w IssueTable queryset;
     do open_issues <- qs_count w IssueTable (open_issues queryset);
     let issue_completed_month_wise := issue_completed_month_wise queryset in
     let most_issue_created_user := most_issue_created_user queryset in
     do month_rows <- fetch w IssueTable issue_completed_month_wise;
     do user_rows <- fetch w IssueTable most_issue_created_user;
     ret (mkResponse
            (default_body total_issues open_issues month_rows user_rows)
            HTTP_200_OK))
    (λ e, ([Printed e], generic_error)).

End DefaultAnalyticsEndpoint.

(** ** The distribution builder *)

Section build_graph_plot.

(** The value of an issue along the axis a request names. *)
Variable axis_value : pyvalue → Issue → string.

(** The rows of one group: its count, or one count per sub-group when a
    segment is asked for. *)
Definition group_rows (segment : pyvalue) (key : string)
    (members : list Issue) : list plot_row :=
  if truthy segment then
    (λ sn, {| dimension := key; segment := Some sn.1; row_count := sn.2 |})
      <$> group_count (axis_value segment <$> members)
  else
    [ {| dimension := key; segment := None; row_count := length members |} ].

(** Modelled from the spec: [build_graph_plot]
    ([plane.utils.analytics_plot]) is not part of this module. Given a
    filtered issue collection and one or two grouping dimensions it
    produces counts per group, optionally sub-segmented: the issues are
    grouped by their value along [x_axis], and each group is counted. *)
Definition build_graph_plot (queryset : list Issue)
    (x_axis y_axis segment : pyvalue) : exn + Distribution :=
  inr ((λ key,
          (key,
           group_rows segment key
             (filter (λ i, axis_value x_axis i = key) queryset)))
         <$> remove_dups (axis_value x_axis <$> queryset)).

End build_graph_plot.

(** The sum of every count of a distribution, over groups and sub-groups. *)
Definition distribution_total (distribution : Distribution) : nat :=
  sum_list ((λ g, sum_list (row_count <$> g.2)) <$> distribution).

(** ** Missing parameters *)

(** A query parameter is missing or empty: the query string gives it no
    value, or the last value it gives is the empty string. *)
Definition query_param_missing (request : Request) (key : string) : Prop :=
  ∀ v, last (getlist (GET request) key) = Some v → v = "".

(** The value a body gives a parameter, when the body is a JSON object that
    has it. *)
Definition body_param (request : Request) (key : string) : option pyvalue :=
  match data request with
  | inr (VDict items) => py_dict items !! key
  | _ => None
  end.

(** The body is a JSON object. *)
Definition body_is_object (request : Request) : Prop :=
  ∃ items, data request = inr (VDict items).

(** A body parameter is missing or falsy. *)
Definition body_param_missing (request : Request) (key : string) : Prop :=
  ∀ v, body_param request key = Some v → truthy v = false.

(** The first malformed id among the id filters, in the order the filters
    are applied. *)
Definition malformed_id (w : World) (request : Request) : option exn :=
  head (omap (key_error w)
          (getlist (GET request) "project" ++ getlist (GET request) "cycle"
           ++ getlist (GET request) "module")).

(** ** The selection the id filters describe *)

(** An issue is selected when it is in the workspace of the path and, for
    each kind of id filter that is given, matches it. *)
Definition conjunctive_selection (d : Database) (slug : string)
    (project_ids cycle_ids module_ids : list string) (i : Issue) : Prop :=
  i ∈ Issue_rows d
  ∧ workspace__slug d (issue_workspace_id i) slug
  ∧ (project_ids ≠ [] → project_id i ∈ project_ids)
  ∧ (cycle_ids ≠ [] → ∃ c, c ∈ issue_cycle i ∧ c ∈ cycle_ids)
  ∧ (module_ids ≠ [] → ∃ m, m ∈ issue_module i ∧ m ∈ module_ids).

(** ** Sample data *)

Module Sample.

Definition acme : Workspace :=
  {| workspace_id := "w1"; workspace_slug := "acme" |}.
Definition globex : Workspace :=
  {| workspace_id := "w2"; workspace_slug := "globex" |}.

Definition alice : User := {| user_id := "u1"; email := "alice@acme.io" |}.
Definition bob : User := {| user_id := "u2"; email := "bob@acme.io" |}.

Definition in_progress : State :=
  {| state_name := "In Progress"; state_group := "started";
     state_color := "#f59e0b"; state_workspace_id := "w1";
     state_project_id := "p1" |}.
Definition done : State :=
  {| state_name := "Done"; state_group := "completed";
     state_color := "#16a34a"; state_workspace_id := "w1";
     state_project_id := "p1" |}.

Definition at_noon (y m d : Z) : datetime :=
  {| year := y; month := m; day := d; hour := 12; minute := 0; second := 0 |}.

Definition issue1 : Issue :=
  {| issue_id := "i1"; issue_workspace_id := "w1"; project_id := "p1";
     state := Some in_progress; issue_cycle := ["c1"];
     issue_module := ["m1"; "m2"]; completed_at := None;
     created_by := Some alice |}.
Definition issue2 : Issue :=
  {| issue_id := "i2"; issue_workspace_id := "w1"; project_id := "p1";
     state := Some done; issue_cycle := []; issue_module := ["m1"];
     completed_at := Some (at_noon 2023 5 3); created_by := Some bob |}.
Definition issue3 : Issue :=
  {| issue_id := "i3"; issue_workspace_id := "w1"; project_id := "p2";
     state := Some done; issue_cycle := ["c1"]; issue_module := [];
     completed_at := Some (at_noon 2023 4 20); created_by := Some bob |}.
Definition issue4 : Issue :=
  {| issue_id := "i4"; issue_workspace_id := "w2"; project_id := "p9";
     state := None; issue_cycle := []; issue_module := [];
     completed_at := Some (at_noon 2023 5 9); created_by := None |}.
Definition issue5 : Issue :=
  {| issue_id := "i5"; issue_workspace_id := "w1"; project_id := "p2";
     state := None; issue_cycle := []; issue_module := [];
     completed_at := Some (at_noon 2023 5 9); created_by := None |}.

Definition by_state : AnalyticView :=
  {| pk := "v1"; view_workspace_id := "w1"; view_name := "By state";
     query := {[ "workspace__slug" := VStr "acme" ]};
     query_dict := {[ "x_axis" := VStr "state__group";
                      "y_axis" := VStr "issue_count" ]} |}.

Definition db : Database :=
  {| Issue_rows := [issue1; issue2; issue3; issue4; issue5];
     AnalyticView_rows := [by_state];
     Workspace_rows := [acme; globex];
     State_rows := [in_progress; done];
     Label_rows := [] |}.

(** The sample ids are taken as they are: none is malformed. *)
Definition world : World :=
  {| database := inr db; broker := None; key_error := λ _, None |}.

Definition connection_refused : exn := OtherException "connection refused".

Definition world_database_down : World :=
  {| database := inl connection_refused; broker := None;
     key_error := λ _, None |}.

Definition broker_unreachable : exn := OtherException "broker unreachable".

Definition world_broker_down : World :=
  {| database := inr db; broker := Some broker_unreachable;
     key_error := λ _, None |}.

Definition get_request (q : list (string * string)) : Request :=
  {| GET := q; data := inr (VDict []); user := alice |}.

Definition post_request (body : pyvalue) : Request :=
  {| GET := []; data := inr body; user := alice |}.

Definition export_body : pyvalue :=
  VDict [("x_axis", VStr "state__group"); ("y_axis", VStr "issue_count")].

(** The state group of an issue, whatever axis is named. *)
Definition state_group_axis (axis : pyvalue) (i : Issue) : string :=
  match state i with
  | Some s => state_group s
  | None => "None"
  end.

(** The ORM reading of a stored filter that names only its workspace. *)
Definition stored_filter (filter : gmap string pyvalue)
    : exn + QuerySet Issue :=
  match filter !! "workspace__slug" with
  | Some (VStr slug) =>
      inr (qs_filter_workspace__slug issue_workspace_id slug Issue_objects)
  | _ => inl (OtherException "FieldError")
  end.

(** What the dashboard summary of workspace [acme] is on [db]. *)
Definition expected_months : list (datetime * nat) :=
  [ ({| year := 2023; month := 4; day := 1;
        hour := 0; minute := 0; second := 0 |}, 1);
    ({| year := 2023; month := 5; day := 1;
        hour := 0; minute := 0; second := 0 |}, 2) ].

Definition expected_creators : list (string * nat) :=
  [ ("bob@acme.io", 2); ("alice@acme.io", 1) ].

Definition summary : list event * Response :=
  (replicate 4 (Queried IssueTable),
   mkResponse (default_body 4 1 expected_months expected_creators)
     HTTP_200_OK).

(** The chart of workspace [acme] by state group. *)
Definition chart_request : Request :=
  get_request [("x_axis", "state__group"); ("y_axis", "issue_count")].

Definition expected_distribution : Distribution :=
  [ ("started",
     [ {| dimension := "started"; segment := None; row_count := 1 |} ]);
    ("completed",
     [ {| dimension := "completed"; segment := None; row_count := 2 |} ]);
    ("None",
     [ {| dimension := "None"; segment := None; row_count := 1 |} ]) ].

Definition chart : list event * Response :=
  ([Queried IssueTable; Queried IssueTable; Queried StateTable],
   mkResponse
     (analytics_body 4 expected_distribution
        (colors_values "group"
           [("started", "#f59e0b"); ("completed", "#16a34a")]))
     HTTP_200_OK).

Definition saved_chart : list event * Response :=
  ([Queried AnalyticViewTable; Queried IssueTable; Queried IssueTable],
   mkResponse (saved_body 4 expected_distribution) HTTP_200_OK).

(** A create whose body names another workspace than the path does. *)
Definition forged_serializer : Serializer :=
  {| validated_data :=
       {[ "name" := VStr "Mine"; "workspace" := VStr "w2";
          "workspace_id" := VStr "w2" ]} |}.

Definition new_view : AnalyticView :=
  {| pk := "v2"; view_workspace_id := "w1"; view_name := "Mine";
     query := ∅; query_dict := ∅ |}.

Definition db_after_create : Database :=
  {| Issue_rows := Issue_rows db;
     AnalyticView_rows := [by_state; new_view];
     Workspace_rows := Workspace_rows db;
     State_rows := State_rows db;
     Label_rows := Label_rows db |}.

End Sample.

(** ** The colour legend *)

(** A state or a label is in the legend of a chart when it belongs to the
    workspace of the path and, if project ids are given, to one of those
    projects. *)
Definition in_legend (d : Database) (slug : string)
    (project_ids : list string) (wid pid : string) : Prop :=
  workspace__slug d wid slug ∧ (project_ids = [] ∨ pid ∈ project_ids).

#[global] Instance in_legend_dec d slug project_ids wid pid :
  Decision (in_legend d slug project_ids wid pid).
Proof. unfold in_legend. apply _. Defined.

Definition legend_states (d : Database) (slug : string)
    (project_ids : list string) : list State :=
  filter (λ s, in_legend d slug project_ids
                 (state_workspace_id s) (state_project_id s))
    (State_rows d).

Definition legend_labels (d : Database) (slug : string)
    (project_ids : list string) : list Label :=
  filter (λ l, in_legend d slug project_ids
                 (label_workspace_id l) (label_project_id l))
    (Label_rows d).

(** What rendering a legend gives and logs once the database answers. *)
Definition rendered (d : Database) (c : LazyColors) : Colors :=
  match c with
  | lazy_dict => colors_dict
  | lazy_values _ key qs => colors_values key (qs d)
  end.

Definition render_log (c : LazyColors) : list event :=
  match c with
  | lazy_dict => []
  | lazy_values t _ _ => [Queried t]
  end.

(** ** Keys *)

(** Every workspace has an id of its own. *)
Definition workspace_ids_unique (d : Database) : Prop :=
  NoDup (workspace_id <$> Workspace_rows d).

(** Every issue is linked to at most one cycle and to at most one module. *)
Definition single_links (d : Database) : Prop :=
  ∀ i, i ∈ Issue_rows d →
       length (issue_cycle i) ≤ 1 ∧ length (issue_module i) ≤ 1.

(** The same surroundings with another database. *)
Definition with_database (w : World) (d : Database) : World :=
  {| database := inr d; broker := broker w; key_error := key_error w |}.

(** ** The lookup of a saved view *)

(** The queryset [SavedAnalyticEndpoint.get] asks one row of. *)
Definition saved_view_lookup (slug analytic_id : string)
    : QuerySet AnalyticView :=
  qs_filter_workspace__slug view_workspace_id slug
    (qs_filter (λ v, pk v = analytic_id) AnalyticView_objects).

(** A stored axis is missing or falsy. *)
Definition stored_param_missing (view : AnalyticView) (key : string) : Prop :=
  ∀ v, query_dict view !! key = Some v → truthy v = false.

(** A [filter_queryset] that only removes rows. *)
Definition narrows
    (filter_queryset : QuerySet AnalyticView → QuerySet AnalyticView) : Prop :=
  ∀ qs d v, v ∈ filter_queryset qs d → v ∈ qs d.

(** Rows that are issues of the database, none of them twice. *)
Definition distinct_issues (d : Database) (l : list Issue) : Prop :=
  NoDup l ∧ ∀ i, i ∈ l → i ∈ Issue_rows d.

(** ** More sample data *)

Module Scenario.

(** A saved view whose stored query names no [y_axis]. *)
Definition draft : AnalyticView :=
  {| pk := "v9"; view_workspace_id := "w1"; view_name := "Draft";
     query := {[ "workspace__slug" := VStr "acme" ]};
     query_dict := {[ "x_axis" := VStr "priority" ]} |}.

(** A saved view whose stored filter the ORM rejects. *)
Definition stale : AnalyticView :=
  {| pk := "v8"; view_workspace_id := "w1"; view_name := "Stale";
     query := {[ "sprint__in" := VList [VStr "s1"] ]};
     query_dict := ∅ |}.

(** Issues with at most one cycle and one module each. *)
Definition db : Database :=
  {| Issue_rows := [Sample.issue2; Sample.issue3; Sample.issue5];
     AnalyticView_rows := [Sample.by_state; draft; stale];
     Workspace_rows := [Sample.acme; Sample.globex];
     State_rows := [Sample.in_progress; Sample.done];
     Label_rows := [] |}.

Definition world : World :=
  {| database := inr db; broker := None; key_error := λ _, None |}.

(** Keys that are UUIDs, told here by their length. *)
Definition invalid_uuid : exn := OtherException "ValidationError".

Definition uuid_key_error (id : string) : option exn :=
  if bool_decide (String.length id = 36) then None else Some invalid_uuid.

Definition world_uuid_keys : World :=
  {| database := inr Sample.db; broker := None;
     key_error := uuid_key_error |}.

Definition world_uuid_keys_database_down : World :=
  {| database := inl Sample.connection_refused; broker := None;
     key_error := uuid_key_error |}.

Definition a_project : string := "7c9e6679-7425-40de-944b-e07fc1f90ae7".

(** A chart asked for a project whose id is no UUID. *)
Definition malformed_chart_request : Request :=
  Sample.get_request
    [("x_axis", "state__group"); ("y_axis", "issue_count");
     ("project", "p1")].

(** A summary asked for one project, by a well-formed id. *)
Definition project_summary_request : Request :=
  Sample.get_request [("project", a_project)].

(** A summary asked for a project whose id is no UUID. *)
Definition malformed_summary_request : Request :=
  Sample.get_request [("project", "p1")].

Definition field_error : exn := OtherException "FieldError".

(** A distribution builder that fails. *)
Definition failing_plot (rows : list Issue) (x_axis y_axis segment : pyvalue)
    : exn + Distribution :=
  inl (OtherException "ProgrammingError").

(** No filter backend. *)
Definition no_backend (qs : QuerySet AnalyticView) : QuerySet AnalyticView :=
  qs.

End Scenario.

(** * Properties *)

(** ** Counting by key *)

Section group_count.
Context {K : Type} `{EqDecision K}.
Implicit Types (k : K) (ks : list K).

Lemma elem_of_group_count k n ks :
  (k, n) ∈ group_count ks ↔ k ∈ ks ∧ n = length (filter (λ k', k' = k) ks).
Proof.
  unfold group_count. rewrite list_elem_of_fmap. split.
  - intros (k' & [= -> ->] & Hin). by rewrite elem_of_remove_dups in Hin.
  - intros [Hin ->]. exists k. by rewrite elem_of_remove_dups.
Qed.

Lemma group_count_fst ks : (group_count ks).*1 = remove_dups ks.
Proof.
  unfold group_count. generalize (remove_dups ks) as l.
  induction l as [|k l IH]; csimpl; [done|]. by f_equal.
Qed.

Lemma NoDup_group_count_fst ks : NoDup (group_count ks).*1.
Proof. rewrite group_count_fst. apply NoDup_remove_dups. Qed.

Lemma occurrences_pos k ks :
  0 < length (filter (λ k', k' = k) ks) ↔ k ∈ ks.
Proof.
  split.
  - destruct (filter (λ k', k' = k) ks) as [|k' l] eqn:Hf; [simpl; lia|].
    intros _. assert (k' ∈ filter (λ k', k' = k) ks) as Hin
      by (rewrite Hf; left).
    by apply list_elem_of_filter in Hin as [-> ?].
  - intros Hin.
    assert (k ∈ filter (λ k', k' = k) ks) as Hk
      by by apply list_elem_of_filter.
    destruct (filter (λ k', k' = k) ks);
      [by apply elem_of_nil in Hk|simpl; lia].
Qed.

(** The rows of a grouping are the keys that occur, each with its number of
    occurrences. *)
Lemma group_count_spec k n ks :
  (k, n) ∈ group_count ks
  ↔ n = length (filter (λ k', k' = k) ks) ∧ 0 < n.
Proof.
  rewrite elem_of_group_count. split.
  - intros [Hin ->]. split; [done|]. by apply occurrences_pos.
  - intros [-> Hpos]. split; [|done]. by apply occurrences_pos.
Qed.

Lemma sum_list_zero {A} (l : list A) : sum_list ((λ _, 0) <$> l) = 0.
Proof. induction l as [|x l IH]; csimpl; [done|]. by rewrite IH. Qed.

Lemma sum_list_plus {A} (f g : A → nat) (l : list A) :
  sum_list ((λ x, f x + g x) <$> l) = sum_list (f <$> l) + sum_list (g <$> l).
Proof. induction l as [|x l IH]; csimpl; [done|]. rewrite IH. lia. Qed.

(** A key occurs once among keys without repetition. *)
Lemma sum_indicator (l : list K) x :
  NoDup l → x ∈ l →
  sum_list ((λ k, if decide (x = k) then 1 else 0) <$> l) = 1.
Proof.
  induction 1 as [|k l Hk Hnd IH]; intros Hx; [by apply elem_of_nil in Hx|].
  csimpl. apply elem_of_cons in Hx as [->|Hx].
  - rewrite decide_True by done.
    rewrite (list_fmap_ext _ (λ _, 0)); [by rewrite sum_list_zero|].
    intros i k' Hk'. apply decide_False. intros ->.
    apply Hk. by eapply list_elem_of_lookup_2.
  - rewrite decide_False by (by intros ->). by rewrite IH.
Qed.

(** Over keys without repetition that cover the list, the occurrences add
    up to the length of the list. *)
Lemma sum_occurrences (l : list K) ks :
  NoDup l → (∀ k, k ∈ ks → k ∈ l) →
  sum_list ((λ k, length (filter (λ k', k' = k) ks)) <$> l) = length ks.
Proof.
  intros Hnd. induction ks as [|x ks IH]; intros Hcov.
  - apply sum_list_zero.
  - rewrite (list_fmap_ext _
      (λ k, (if decide (x = k) then 1 else 0)
            + length (filter (λ k', k' = k) ks)) l).
    + rewrite sum_list_plus, sum_indicator, IH; [done| |done|].
      * intros k Hk. apply Hcov. by right.
      * apply Hcov. by left.
    + intros i k _. rewrite filter_cons. by destruct (decide (x = k)).
Qed.

Lemma sum_group_count ks : sum_list (group_count ks).*2 = length ks.
Proof.
  unfold group_count. rewrite <- list_fmap_compose.
  apply sum_occurrences; [apply NoDup_remove_dups|].
  intros k. by rewrite elem_of_remove_dups.
Qed.

End group_count.

Lemma occurrences_fmap {A K} `{EqDecision K} (f : A → K) (k : K) (l : list A) :
  length (filter (λ k', k' = k) (f <$> l)) = length (filter (λ x, f x = k) l).
Proof.
  induction l as [|x l IH]; csimpl; [done|].
  rewrite !filter_cons. destruct (decide (f x = k)); simpl; by rewrite IH.
Qed.

Lemma occurrences_omap {A K} `{EqDecision K} (f : A → option K) (k : K)
    (l : list A) :
  length (filter (λ k', k' = k) (omap f l))
  = length (filter (λ x, f x = Some k) l).
Proof.
  induction l as [|x l IH]; [done|].
  rewrite (filter_cons (λ x, f x = Some k)). csimpl.
  destruct (f x) as [k'|] eqn:Hfx.
  - rewrite filter_cons. destruct (decide (k' = k)) as [->|Hne].
    + rewrite decide_True by done. simpl. by rewrite IH.
    + rewrite decide_False by congruence. done.
  - rewrite decide_False by done. done.
Qed.

Lemma omap_filter {A K} (P : A → Prop) `{!∀ x, Decision (P x)}
    (f : A → option K) (l : list A) :
  (∀ x, is_Some (f x) → P x) → omap f (filter P l) = omap f l.
Proof.
  intros HP. induction l as [|x l IH]; [done|].
  rewrite filter_cons. destruct (decide (P x)) as [Hx|Hx]; csimpl.
  - by rewrite IH.
  - destruct (f x) as [k|] eqn:Hfx; [|done].
    destruct Hx. apply HP. rewrite Hfx. eauto.
Qed.

Lemma length_omap_is_Some {A K} (f : A → option K) (l : list A) :
  length (omap f l) = length (filter (λ x, is_Some (f x)) l).
Proof.
  induction l as [|x l IH]; [done|].
  rewrite filter_cons. destruct (decide (is_Some (f x))) as [[k Hk]|Hn].
  - csimpl. rewrite Hk. simpl. by rewrite IH.
  - csimpl. destruct (f x) as [k|]; [|done]. destruct Hn. eauto.
Qed.

Lemma filter_none {A} (P : A → Prop) `{!∀ x, Decision (P x)} (l : list A) :
  (∀ x, x ∈ l → ¬ P x) → filter P l = [].
Proof.
  intros Hl. destruct (filter P l) as [|x l'] eqn:Hf; [done|].
  assert (x ∈ filter P l) as Hx by (rewrite Hf; left).
  apply list_elem_of_filter in Hx as [HP Hx]. by destruct (Hl x).
Qed.

(** ** Sorted lists and the orders of [order_by] *)

Lemma Sorted_adjacent {A} (R : relation A) (l : list A) i a b :
  Sorted R l → l !! i = Some a → l !! S i = Some b → R a b.
Proof.
  intros Hs. revert i. induction Hs as [|x l Hs IH Hhd]; intros i Ha Hb.
  - done.
  - destruct i as [|i]; simpl in *.
    + injection Ha as ->. destruct Hhd as [|y l' Hxy]; [done|].
      simpl in Hb. by injection Hb as ->.
    + eauto.
Qed.

#[global] Instance month_le_total : Total month_le.
Proof.
  intros [[] ?] [[] ?]. unfold month_le, datetime_le. simpl. lia.
Qed.

#[global] Instance record_count_ge_total : Total record_count_ge.
Proof. intros [? ?] [? ?]. unfold record_count_ge. simpl. lia. Qed.

Lemma TruncMonth_idemp t : TruncMonth (TruncMonth t) = TruncMonth t.
Proof. done. Qed.

(** ** Querysets *)

Lemma elem_of_qs_filter {A} (P : A → Prop) `{!∀ x, Decision (P x)}
    (qs : QuerySet A) d x :
  x ∈ qs_filter P qs d ↔ P x ∧ x ∈ qs d.
Proof. apply list_elem_of_filter. Qed.

Lemma elem_of_qs_filter_workspace__slug {A} (fk : A → string) slug
    (qs : QuerySet A) d x :
  x ∈ qs_filter_workspace__slug fk slug qs d
  ↔ workspace__slug d (fk x) slug ∧ x ∈ qs d.
Proof. unfold qs_filter_workspace__slug. by rewrite list_elem_of_filter. Qed.

Lemma elem_of_qs_filter_related_in rel ids (qs : QuerySet Issue) d i :
  i ∈ qs_filter_related_in rel ids qs d
  ↔ (∃ c, c ∈ rel i ∧ c ∈ ids) ∧ i ∈ qs d.
Proof.
  unfold qs_filter_related_in. rewrite list_elem_of_bind. split.
  - intros (j & Hin & Hj). apply list_elem_of_fmap in Hin as (c & -> & Hc).
    apply list_elem_of_filter in Hc as [? ?]. eauto.
  - intros [(c & Hc & Hids) Hi]. exists i. split; [|done].
    apply list_elem_of_fmap. exists c. split; [done|].
    by apply list_elem_of_filter.
Qed.

Lemma state__group__in_spec groups i :
  state__group__in groups i ↔ ∃ s, state i = Some s ∧ state_group s ∈ groups.
Proof.
  unfold state__group__in. destruct (state i) as [s|]; [|naive_solver].
  split; [eauto|]. by intros (? & [= <-] & ?).
Qed.

Lemma qs_get_inv {A} w t (qs : QuerySet A) log x :
  qs_get w t qs = (log, inr x) →
  ∃ d, database w = inr d ∧ qs d = [x] ∧ log = [Queried t].
Proof.
  unfold qs_get, fetch. destruct (database w) as [e|d]; [discriminate|].
  destruct (qs d) as [|y [|z l]] eqn:Hqs; cbn; [discriminate| |discriminate].
  intros [= <- <-]. eauto.
Qed.

(** The filters of both handlers select the same rows. *)
Lemma queryset_selection d slug
    (project_ids cycle_ids module_ids : list string) i :
  let queryset :=
    qs_filter_workspace__slug issue_workspace_id slug Issue_objects in
  let queryset :=
    if list_truthy project_ids
    then qs_filter (λ i, project_id i ∈ project_ids) queryset
    else queryset in
  let queryset :=
    if list_truthy cycle_ids
    then qs_filter_related_in issue_cycle cycle_ids queryset
    else queryset in
  let queryset :=
    if list_truthy module_ids
    then qs_filter_related_in issue_module module_ids queryset
    else queryset in
  i ∈ queryset d
  ↔ conjunctive_selection d slug project_ids cycle_ids module_ids i.
Proof.
  unfold conjunctive_selection.
  destruct project_ids as [|p ps], cycle_ids as [|c cs], module_ids as [|m ms];
    simpl;
    rewrite ?elem_of_qs_filter_related_in, ?elem_of_qs_filter,
      ?elem_of_qs_filter_workspace__slug;
    unfold Issue_objects; naive_solver.
Qed.

(** ** Missing parameters are falsy *)

Lemma query_param_missing_falsy request key :
  query_param_missing request key →
  truthy (QueryDict_get (GET request) key (VBool false)) = false.
Proof.
  unfold query_param_missing, QueryDict_get. intros H.
  destruct (last (getlist (GET request) key)) as [v|]; [|done].
  by rewrite (H v eq_refl).
Qed.

Lemma body_param_missing_falsy request items key :
  data request = inr (VDict items) →
  body_param_missing request key →
  truthy (dict_get (py_dict items) key (VBool false)) = false.
Proof.
  unfold body_param_missing, body_param, dict_get. intros -> H.
  destruct (py_dict items !! key) as [v|]; [|done]. by apply H.
Qed.

(** ** Malformed ids *)

Lemma head_app_omap {A B} (f : A → option B) (l1 l2 : list A) :
  head (omap f (l1 ++ l2))
  = match head (omap f l1) with
    | Some x => Some x
    | None => head (omap f l2)
    end.
Proof. rewrite omap_app. by destruct (omap f l1). Qed.

(** The filters raise the first malformed id, or let the handler go on. *)
Lemma clean_filters {A} w request (k : M A) :
  (do_ clean_ids w (getlist (GET request) "project");
   do_ clean_ids w (getlist (GET request) "cycle");
   do_ clean_ids w (getlist (GET request) "module");
   k)
  = match malformed_id w request with
    | Some e => raise e
    | None => k
    end.
Proof.
  unfold malformed_id, clean_ids. rewrite !head_app_omap.
  destruct k as [log r].
  destruct (head (omap (key_error w) (getlist (GET request) "project")));
    [done|].
  destruct (head (omap (key_error w) (getlist (GET request) "cycle")));
    [done|].
  by destruct (head (omap (key_error w) (getlist (GET request) "module"))).
Qed.

Lemma query_param_absent request key :
  (∀ v, (key, v) ∉ GET request) → query_param_missing request key.
Proof.
  intros Hq v. unfold getlist. rewrite filter_none; [done|].
  intros [k v'] Hin Hk. simpl in Hk. subst. by apply (Hq v').
Qed.

(** ** The handlers, case by case *)

Lemma DefaultAnalyticsEndpoint_get_malformed w e request slug :
  malformed_id w request = Some e →
  DefaultAnalyticsEndpoint.get w request slug = ([Printed e], generic_error).
Proof.
  intros Hm. unfold DefaultAnalyticsEndpoint.get.
  by rewrite clean_filters, Hm.
Qed.

Lemma DefaultAnalyticsEndpoint_get_up w d request slug :
  malformed_id w request = None →
  database w = inr d →
  DefaultAnalyticsEndpoint.get w request slug
  = (replicate 4 (Queried IssueTable),
     let queryset := DefaultAnalyticsEndpoint.queryset request slug in
     mkResponse
       (default_body
          (length (queryset d))
          (length (DefaultAnalyticsEndpoint.open_issues queryset d))
          (DefaultAnalyticsEndpoint.issue_completed_month_wise queryset d)
          (DefaultAnalyticsEndpoint.most_issue_created_user queryset d))
       HTTP_200_OK).
Proof.
  intros Hm Hd. unfold DefaultAnalyticsEndpoint.get.
  rewrite clean_filters, Hm. unfold qs_count, fetch.
  rewrite Hd. reflexivity.
Qed.

Lemma DefaultAnalyticsEndpoint_get_down w e request slug :
  database w = inl e →
  DefaultAnalyticsEndpoint.get w request slug
  = ([Printed (default e (malformed_id w request))], generic_error).
Proof.
  intros Hd. destruct (malformed_id w request) as [e'|] eqn:Hm.
  - by apply DefaultAnalyticsEndpoint_get_malformed.
  - unfold DefaultAnalyticsEndpoint.get.
    rewrite clean_filters, Hm. unfold qs_count, fetch.
    rewrite Hd. reflexivity.
Qed.

Lemma DefaultAnalyticsEndpoint_get_ok w request slug log total open mw mc :
  DefaultAnalyticsEndpoint.get w request slug
  = (log, mkResponse (default_body total open mw mc) HTTP_200_OK) →
  ∃ d, database w = inr d ∧
    let queryset := DefaultAnalyticsEndpoint.queryset request slug in
    total = length (queryset d) ∧
    open = length (DefaultAnalyticsEndpoint.open_issues queryset d) ∧
    mw = DefaultAnalyticsEndpoint.issue_completed_month_wise queryset d ∧
    mc = DefaultAnalyticsEndpoint.most_issue_created_user queryset d.
Proof.
  intros Hget. destruct (database w) as [e|d] eqn:Hd.
  - rewrite (DefaultAnalyticsEndpoint_get_down _ _ _ _ Hd) in Hget.
    discriminate.
  - destruct (malformed_id w request) as [e|] eqn:Hm.
    + rewrite (DefaultAnalyticsEndpoint_get_malformed _ _ _ _ Hm) in Hget.
      discriminate.
    + rewrite (DefaultAnalyticsEndpoint_get_up _ _ _ _ Hm Hd) in Hget.
      injection Hget as Hlog Ht Ho Hm' Hc. subst. eauto 10.
Qed.

(** The sibling handlers hand what they catch to the error tracker. *)
Lemma AnalyticsEndpoint_get_malformed build_graph_plot w e request slug :
  truthy (QueryDict_get (GET request) "x_axis" (VBool false)) = true →
  truthy (QueryDict_get (GET request) "y_axis" (VBool false)) = true →
  malformed_id w request = Some e →
  AnalyticsEndpoint.get build_graph_plot w request slug
  = ([Captured e], generic_error).
Proof.
  intros Hx Hy Hm. unfold AnalyticsEndpoint.get.
  rewrite Hx, Hy. cbn [negb orb]. by rewrite clean_filters, Hm.
Qed.

Lemma AnalyticsEndpoint_get_down build_graph_plot w e request slug :
  truthy (QueryDict_get (GET request) "x_axis" (VBool false)) = true →
  truthy (QueryDict_get (GET request) "y_axis" (VBool false)) = true →
  database w = inl e →
  AnalyticsEndpoint.get build_graph_plot w request slug
  = ([Captured (default e (malformed_id w request))], generic_error).
Proof.
  intros Hx Hy Hd. destruct (malformed_id w request) as [e'|] eqn:Hm.
  - by apply AnalyticsEndpoint_get_malformed.
  - unfold AnalyticsEndpoint.get.
    rewrite Hx, Hy. cbn [negb orb]. rewrite clean_filters, Hm.
    unfold qs_count, fetch. rewrite Hd. reflexivity.
Qed.

Lemma SavedAnalyticEndpoint_get_down Issue_objects_filter build_graph_plot
    w e request slug analytic_id :
  database w = inl e → e ≠ DoesNotExist AnalyticViewTable →
  SavedAnalyticEndpoint.get Issue_objects_filter build_graph_plot
    w request slug analytic_id
  = ([Captured e], generic_error).
Proof.
  intros Hd He. unfold SavedAnalyticEndpoint.get, qs_get, fetch.
  rewrite Hd. cbn. by destruct e as [[]| | |].
Qed.

Lemma ExportAnalyticsEndpoint_post_object w request items slug :
  data request = inr (VDict items) →
  ExportAnalyticsEndpoint.post w request slug
  = if negb (truthy (dict_get (py_dict items) "x_axis" (VBool false)))
       || negb (truthy (dict_get (py_dict items) "y_axis" (VBool false)))
    then ([], validation_error)
    else
      match broker w with
      | None =>
          ([Enqueued (email (user request)) (VDict items) slug],
           mkResponse
             (message_body
                ("Once the export is ready it will be emailed to you at "
                 +:+ email (user request)))
             HTTP_200_OK)
      | Some e => ([Captured e], generic_error)
      end.
Proof.
  intros Hdata.
  unfold ExportAnalyticsEndpoint.post, request_data_get,
    analytic_export_task_delay.
  rewrite Hdata. cbn [lift bind py_get ret app].
  destruct (negb _ || negb _); [done|]. cbn [lift bind].
  by destruct (broker w).
Qed.

Lemma ExportAnalyticsEndpoint_post_valid w request items slug :
  data request = inr (VDict items) →
  truthy (dict_get (py_dict items) "x_axis" (VBool false)) = true →
  truthy (dict_get (py_dict items) "y_axis" (VBool false)) = true →
  ExportAnalyticsEndpoint.post w request slug
  = match broker w with
    | None =>
        ([Enqueued (email (user request)) (VDict items) slug],
         mkResponse
           (message_body
              ("Once the export is ready it will be emailed to you at "
               +:+ email (user request)))
           HTTP_200_OK)
    | Some e => ([Captured e], generic_error)
    end.
Proof.
  intros Hdata Hx Hy.
  by rewrite (ExportAnalyticsEndpoint_post_object _ _ _ _ Hdata), Hx, Hy.
Qed.

Lemma ExportAnalyticsEndpoint_post_invalid w request items slug :
  data request = inr (VDict items) →
  truthy (dict_get (py_dict items) "x_axis" (VBool false)) = false
  ∨ truthy (dict_get (py_dict items) "y_axis" (VBool false)) = false →
  ExportAnalyticsEndpoint.post w request slug = ([], validation_error).
Proof.
  intros Hdata Hxy.
  rewrite (ExportAnalyticsEndpoint_post_object _ _ _ _ Hdata).
  destruct Hxy as [-> | ->]; [done|]. by rewrite orb_true_r.
Qed.

(** A body that is no JSON object has no [get]. *)
Lemma ExportAnalyticsEndpoint_post_not_object w request value slug :
  data request = inr value →
  (∀ items, value ≠ VDict items) →
  ExportAnalyticsEndpoint.post w request slug
  = ([Captured AttributeError], generic_error).
Proof.
  intros Hdata Hv. unfold ExportAnalyticsEndpoint.post, request_data_get.
  rewrite Hdata. destruct value as [| | | | |items]; try done.
  by destruct (Hv items).
Qed.

(** A body that cannot be parsed raises when it is read. *)
Lemma ExportAnalyticsEndpoint_post_unparsable w request e slug :
  data request = inl e →
  ExportAnalyticsEndpoint.post w request slug = ([Captured e], generic_error).
Proof.
  intros Hdata. unfold ExportAnalyticsEndpoint.post, request_data_get.
  by rewrite Hdata.
Qed.

Lemma render_colors_up w d c :
  database w = inr d → ∃ log c', render_colors w c = (log, inr c').
Proof.
  intros Hd. destruct c as [|t key qs]; simpl; [by eauto|].
  unfold fetch. rewrite Hd. cbn. eauto.
Qed.

Lemma AnalyticsEndpoint_get_ok build_graph_plot w request slug
    log total distribution colors st :
  AnalyticsEndpoint.get build_graph_plot w request slug
  = (log, mkResponse (analytics_body total distribution colors) st) →
  ∃ d, database w = inr d ∧
    let rows := AnalyticsEndpoint.queryset request slug d in
    total = length rows ∧
    build_graph_plot rows
      (QueryDict_get (GET request) "x_axis" (VBool false))
      (QueryDict_get (GET request) "y_axis" (VBool false))
      (QueryDict_get (GET request) "segment" (VBool false))
    = inr distribution.
Proof.
  unfold AnalyticsEndpoint.get.
  destruct (negb _ || negb _); [discriminate|].
  rewrite clean_filters.
  destruct (malformed_id w request); [discriminate|].
  unfold qs_count, fetch.
  destruct (database w) as [e|d] eqn:Hd; [discriminate|].
  unfold bind, tell, ret, lift, try_except.
  destruct (build_graph_plot _ _ _ _) as [e|dist] eqn:Hplot; [discriminate|].
  destruct (render_colors_up w d
              (AnalyticsEndpoint.colors request slug
                 (QueryDict_get (GET request) "x_axis" (VBool false))) Hd)
    as (log' & c' & Hc).
  rewrite Hc. intros [= <- <- <- <- <-]. eauto.
Qed.

Lemma SavedAnalyticEndpoint_get_ok Issue_objects_filter build_graph_plot
    w request slug analytic_id log total distribution st :
  SavedAnalyticEndpoint.get Issue_objects_filter build_graph_plot
    w request slug analytic_id
  = (log, mkResponse (saved_body total distribution) st) →
  ∃ d view queryset,
    database w = inr d ∧
    view ∈ AnalyticView_rows d ∧ pk view = analytic_id ∧
    workspace__slug d (view_workspace_id view) slug ∧
    Issue_objects_filter (query view) = inr queryset ∧
    total = length (queryset d) ∧
    build_graph_plot (queryset d)
      (dict_get (query_dict view) "x_axis" (VBool false))
      (dict_get (query_dict view) "y_axis" (VBool false))
      (QueryDict_get (GET request) "segment" (VBool false))
    = inr distribution.
Proof.
  unfold SavedAnalyticEndpoint.get.
  destruct (qs_get w AnalyticViewTable _) as [log0 [e|view]] eqn:Hget.
  { unfold bind, try_except. by destruct e as [[]| | |]. }
  apply qs_get_inv in Hget as (d & Hd & Hf & ->).
  assert (view ∈ qs_filter_workspace__slug view_workspace_id slug
            (qs_filter (λ v, pk v = analytic_id) AnalyticView_objects) d)
    as Hin by (rewrite Hf; left).
  apply elem_of_qs_filter_workspace__slug in Hin as [Hslug Hin].
  apply elem_of_qs_filter in Hin as [Hpk Hin].
  unfold bind at 1.
  destruct (Issue_objects_filter (query view)) as [e|queryset] eqn:Hq.
  { cbn. by destruct e as [[]| | |]. }
  unfold lift, bind at 1.
  destruct (negb _ || negb _); [discriminate|].
  unfold qs_count, fetch. rewrite Hd.
  unfold bind, tell, ret, try_except.
  destruct (build_graph_plot _ _ _ _) as [e|dist] eqn:Hplot.
  { by destruct e as [[]| | |]. }
  intros [= <- <- <- <-]. eauto 12.
Qed.

(** ** Distributions *)

Section distribution.
Context (axis_value : pyvalue → Issue → string).

Lemma group_rows_total segment key members :
  sum_list (row_count <$> group_rows axis_value segment key members)
  = length members.
Proof.
  unfold group_rows. destruct (truthy segment).
  - rewrite <- list_fmap_compose.
    rewrite <- (length_fmap (axis_value segment) members).
    rewrite <- sum_group_count. done.
  - simpl. lia.
Qed.

Lemma build_graph_plot_total rows x_axis y_axis segment distribution :
  build_graph_plot axis_value rows x_axis y_axis segment = inr distribution →
  distribution_total distribution = length rows.
Proof.
  intros [= <-]. unfold distribution_total.
  rewrite <- list_fmap_compose.
  rewrite (list_fmap_ext _
    (λ key, length (filter (λ k', k' = key) (axis_value x_axis <$> rows)))).
  - rewrite sum_occurrences;
      [apply length_fmap|apply NoDup_remove_dups|].
    intros k. by rewrite elem_of_remove_dups.
  - intros i key _. simpl. rewrite group_rows_total.
    by rewrite occurrences_fmap.
Qed.

End distribution.

(** ** The sample data, evaluated *)

Lemma sample_summary :
  DefaultAnalyticsEndpoint.get Sample.world (Sample.get_request []) "acme"
  = Sample.summary.
Proof. vm_compute. reflexivity. Qed.

Lemma save_workspace_id (validated_data : gmap string pyvalue) wid :
  workspace_field ({[ "workspace_id" := VStr wid ]} ∪ validated_data)
  = Some (VStr wid).
Proof.
  unfold workspace_field.
  by rewrite (lookup_union_Some_l _ _ _ (VStr wid))
    by apply lookup_singleton_eq.
Qed.

(** * The claims *)

(** C1, as stated, fails for a POST whose body is a JSON array: the body
    has no [x_axis], yet reading it raises inside the handler and the answer
    is the generic error, not the validation error. *)
Lemma array_body_is_generic_error :
  let request := Sample.post_request (VList []) in
  body_param request "x_axis" = None
  ∧ body_param_missing request "x_axis"
  ∧ ExportAnalyticsEndpoint.post Sample.world request "acme"
    = ([Captured AttributeError],
       mkResponse (error_body "Something went wrong please try again later")
         400%Z).
Proof. split; [done|]. split; [by intros v [=]|]. by vm_compute. Qed.

(** C1, amended: when the [x_axis] or the [y_axis] parameter is missing or
    falsy, a GET on [AnalyticsEndpoint], and a POST on
    [ExportAnalyticsEndpoint] whose body is a JSON object, answer the
    validation error with status 400, whatever the state of the database
    and of the broker, and nothing else happens; a POST whose body is no
    JSON object or cannot be parsed is answered the generic error, also
    with status 400, after the exception is handed to the error tracker. *)
Theorem missing_axis_is_validation_error build_graph_plot w request slug :
  (query_param_missing request "x_axis" ∨ query_param_missing request "y_axis" →
   AnalyticsEndpoint.get build_graph_plot w request slug
   = ([], mkResponse (error_body "x-axis and y-axis dimensions are required")
            400%Z))
  ∧ (body_is_object request →
     body_param_missing request "x_axis" ∨ body_param_missing request "y_axis" →
     ExportAnalyticsEndpoint.post w request slug
     = ([], mkResponse (error_body "x-axis and y-axis dimensions are required")
              400%Z))
  ∧ (¬ body_is_object request →
     ∃ e, ExportAnalyticsEndpoint.post w request slug
          = ([Captured e],
             mkResponse
               (error_body "Something went wrong please try again later")
               400%Z)).
Proof.
  split; [|split].
  - intros Hxy. unfold AnalyticsEndpoint.get.
    replace (negb _ || negb _) with true; [done|].
    destruct Hxy as [H|H]; apply query_param_missing_falsy in H; rewrite H;
      [done|]. by rewrite orb_true_r.
  - intros [items Hdata] Hxy.
    apply (ExportAnalyticsEndpoint_post_invalid _ _ items); [done|].
    destruct Hxy as [H|H];
      apply (body_param_missing_falsy _ items) in H; auto.
  - intros Hbody. destruct (data request) as [e|value] eqn:Hdata.
    + exists e. by apply ExportAnalyticsEndpoint_post_unparsable.
    + exists AttributeError.
      apply (ExportAnalyticsEndpoint_post_not_object _ _ value); [done|].
      intros items ->. apply Hbody. by exists items.
Qed.

Lemma missing_axis_is_validation_error_witness :
  AnalyticsEndpoint.get (build_graph_plot Sample.state_group_axis)
    Sample.world_database_down
    (Sample.get_request [("y_axis", "issue_count")]) "acme"
  = ([], validation_error)
  ∧ ExportAnalyticsEndpoint.post Sample.world_broker_down
      (Sample.post_request
         (VDict [("x_axis", VStr "priority"); ("y_axis", VStr "")]))
      "acme"
    = ([], validation_error).
Proof.
  split.
  - apply (proj1 (missing_axis_is_validation_error _ _ _ _)).
    left. intros v Hv. vm_compute in Hv. discriminate.
  - apply (proj1 (proj2 (missing_axis_is_validation_error
                           (build_graph_plot Sample.state_group_axis) _ _ _))).
    + eexists. reflexivity.
    + right. intros v Hv. vm_compute in Hv. injection Hv as <-. reflexivity.
Defined.

(** C2: in a successful response of [AnalyticsEndpoint] and of
    [SavedAnalyticEndpoint], with the distribution builder the spec
    describes, the counts of the distribution over all groups and sub-groups
    add up to [total], the number of rows of the filtered queryset. *)
Theorem distribution_sums_to_total axis_value Issue_objects_filter
    w request slug analytic_id log total distribution colors
    log' total' distribution' :
  (AnalyticsEndpoint.get (build_graph_plot axis_value) w request slug
   = (log, mkResponse (analytics_body total distribution colors) HTTP_200_OK) →
   distribution_total distribution = total
   ∧ ∃ d, database w = inr d
          ∧ total = length (AnalyticsEndpoint.queryset request slug d))
  ∧ (SavedAnalyticEndpoint.get Issue_objects_filter
       (build_graph_plot axis_value) w request slug analytic_id
     = (log', mkResponse (saved_body total' distribution') HTTP_200_OK) →
     distribution_total distribution' = total'
     ∧ ∃ d view queryset,
         database w = inr d ∧ view ∈ AnalyticView_rows d
         ∧ pk view = analytic_id
         ∧ Issue_objects_filter (query view) = inr queryset
         ∧ total' = length (queryset d)).
Proof.
  split.
  - intros Hget. apply AnalyticsEndpoint_get_ok in Hget.
    destruct Hget as (d & Hd & Ht & Hplot).
    apply build_graph_plot_total in Hplot. split; [congruence|eauto].
  - intros Hget. apply SavedAnalyticEndpoint_get_ok in Hget.
    destruct Hget as (d & view & qs & Hd & Hin & Hpk & _ & Hq & Ht & Hplot).
    apply build_graph_plot_total in Hplot. split; [congruence|eauto 10].
Qed.

Lemma distribution_sums_to_total_witness :
  (AnalyticsEndpoint.get (build_graph_plot Sample.state_group_axis)
     Sample.world Sample.chart_request "acme" = Sample.chart
   ∧ distribution_total Sample.expected_distribution = 4)
  ∧ (SavedAnalyticEndpoint.get Sample.stored_filter
       (build_graph_plot Sample.state_group_axis)
       Sample.world (Sample.get_request []) "acme" "v1" = Sample.saved_chart
     ∧ distribution_total Sample.expected_distribution = 4).
Proof.
  assert (AnalyticsEndpoint.get (build_graph_plot Sample.state_group_axis)
            Sample.world Sample.chart_request "acme" = Sample.chart) as H1
    by (vm_compute; reflexivity).
  assert (SavedAnalyticEndpoint.get Sample.stored_filter
            (build_graph_plot Sample.state_group_axis)
            Sample.world (Sample.get_request []) "acme" "v1"
          = Sample.saved_chart) as H2
    by (vm_compute; reflexivity).
  split; (split; [done|]).
  - exact (proj1 (proj1 (distribution_sums_to_total
             Sample.state_group_axis Sample.stored_filter Sample.world
             Sample.chart_request "acme" "v1" _ 4 _ _ [] 0 []) H1)).
  - exact (proj1 (proj2 (distribution_sums_to_total
             Sample.state_group_axis Sample.stored_filter Sample.world
             (Sample.get_request []) "acme" "v1" [] 0 [] colors_dict
             _ 4 _) H2)).
Defined.

(** C3: when no saved view has both the id asked for and the workspace of
    the path (the id does not exist, or its view belongs to another
    workspace), a GET on [SavedAnalyticEndpoint] answers "Analytic View Does
    not exist" with status 400 after the one lookup, and so returns nothing
    of any view. *)
Theorem saved_view_lookup_is_scoped
    Issue_objects_filter build_graph_plot w d request slug analytic_id :
  database w = inr d →
  (∀ v, v ∈ AnalyticView_rows d → pk v = analytic_id →
        ¬ workspace__slug d (view_workspace_id v) slug) →
  SavedAnalyticEndpoint.get Issue_objects_filter build_graph_plot
    w request slug analytic_id
  = ([Queried AnalyticViewTable],
     mkResponse (error_body "Analytic View Does not exist") 400%Z).
Proof.
  intros Hd Hnone. unfold SavedAnalyticEndpoint.get, qs_get, fetch.
  rewrite Hd.
  unfold qs_filter_workspace__slug. rewrite filter_none; [done|].
  intros v Hv Hslug.
  apply list_elem_of_filter in Hv as [Hpk Hv]. by eapply Hnone.
Qed.

Lemma saved_view_lookup_is_scoped_witness :
  SavedAnalyticEndpoint.get Sample.stored_filter
    (build_graph_plot Sample.state_group_axis)
    Sample.world (Sample.get_request []) "globex" "v1"
  = ([Queried AnalyticViewTable], SavedAnalyticEndpoint.view_does_not_exist).
Proof.
  apply (saved_view_lookup_is_scoped _ _ Sample.world Sample.db).
  - reflexivity.
  - intros v Hv _. apply list_elem_of_singleton in Hv as ->.
    vm_compute. intros [=].
Defined.

(** C4: in a successful response of [DefaultAnalyticsEndpoint],
    [open_issues] is the number of rows of the filtered queryset whose state
    group is backlog, unstarted or started, [total_issues] is the number of
    all its rows, and so [open_issues <= total_issues]. *)
Theorem open_issues_le_total_issues w request slug log total open mw mc :
  DefaultAnalyticsEndpoint.get w request slug
  = (log, mkResponse (default_body total open mw mc) HTTP_200_OK) →
  ∃ d, database w = inr d ∧
    let rows := DefaultAnalyticsEndpoint.queryset request slug d in
    let is_open := state__group__in ["backlog"; "unstarted"; "started"] in
    total = length rows ∧
    open = length (filter is_open rows) ∧
    (∀ i, is_open i ↔
       ∃ s, state i = Some s ∧
            state_group s ∈ ["backlog"; "unstarted"; "started"]) ∧
    open ≤ total.
Proof.
  intros Hget. apply DefaultAnalyticsEndpoint_get_ok in Hget.
  destruct Hget as (d & Hd & -> & -> & _).
  exists d. split; [done|]. simpl. split; [done|].
  unfold DefaultAnalyticsEndpoint.open_issues, qs_filter.
  split; [done|]. split; [|apply length_filter].
  intros i. apply state__group__in_spec.
Qed.

Lemma open_issues_le_total_issues_witness :
  DefaultAnalyticsEndpoint.get Sample.world (Sample.get_request []) "acme"
  = Sample.summary
  ∧ ∃ d, database Sample.world = inr d ∧
      let rows :=
        DefaultAnalyticsEndpoint.queryset (Sample.get_request []) "acme" d in
      let is_open := state__group__in ["backlog"; "unstarted"; "started"] in
      4 = length rows ∧
      1 = length (filter is_open rows) ∧
      (∀ i, is_open i ↔
         ∃ s, state i = Some s ∧
              state_group s ∈ ["backlog"; "unstarted"; "started"]) ∧
      1 ≤ 4.
Proof.
  split; [exact sample_summary|].
  exact (open_issues_le_total_issues Sample.world (Sample.get_request [])
           "acme" _ 4 1 Sample.expected_months Sample.expected_creators
           sample_summary).
Defined.

(** C5: for [AnalyticsEndpoint] and for [DefaultAnalyticsEndpoint], the
    rows of the queryset are exactly the issues of the workspace of the path
    that, for each of the project, cycle and module id filters that is
    given, match it: the filters restrict conjunctively. *)
Theorem filters_are_conjunctive d request slug i :
  let project_ids := getlist (GET request) "project" in
  let cycle_ids := getlist (GET request) "cycle" in
  let module_ids := getlist (GET request) "module" in
  (i ∈ AnalyticsEndpoint.queryset request slug d
   ↔ conjunctive_selection d slug project_ids cycle_ids module_ids i)
  ∧ (i ∈ DefaultAnalyticsEndpoint.queryset request slug d
     ↔ conjunctive_selection d slug project_ids cycle_ids module_ids i).
Proof.
  split; apply queryset_selection.
Qed.

(** C6, at [DefaultAnalyticsEndpoint]: when the database raises, the
    handler answers the generic error with status 400, but it prints the
    exception (that of the database or, when an id filter is malformed, the
    one the filter raised before any query) and hands nothing to the error
    tracker. *)
Theorem DefaultAnalyticsEndpoint_prints_exception w request slug e :
  database w = inl e →
  DefaultAnalyticsEndpoint.get w request slug
  = ([Printed (default e (malformed_id w request))],
     mkResponse (error_body "Something went wrong please try again later")
       400%Z)
  ∧ ∀ e', Captured e' ∉ (DefaultAnalyticsEndpoint.get w request slug).1.
Proof.
  intros Hd. rewrite (DefaultAnalyticsEndpoint_get_down _ _ _ _ Hd).
  split; [done|]. simpl. intros e'. by intros [=]%list_elem_of_singleton.
Qed.

Lemma DefaultAnalyticsEndpoint_prints_exception_witness :
  DefaultAnalyticsEndpoint.get Sample.world_database_down
    (Sample.get_request []) "acme"
  = ([Printed Sample.connection_refused], generic_error)
  ∧ ∀ e', Captured e'
          ∉ (DefaultAnalyticsEndpoint.get Sample.world_database_down
               (Sample.get_request []) "acme").1.
Proof.
  apply (DefaultAnalyticsEndpoint_prints_exception
           Sample.world_database_down (Sample.get_request []) "acme"
           Sample.connection_refused).
  reflexivity.
Defined.

(** C7: a create through [AnalyticViewViewset] that succeeds adds one row,
    and the workspace of that row is the one workspace whose slug is in the
    path, whatever the validated body says. *)
Theorem perform_create_injects_workspace w new_pk serializer slug log d' :
  AnalyticViewViewset.perform_create w new_pk serializer slug = (log, inr d') →
  ∃ d workspace row,
    database w = inr d ∧
    filter (λ ws, workspace_slug ws = slug) (Workspace_rows d) = [workspace] ∧
    workspace_slug workspace = slug ∧
    AnalyticView_rows d' = AnalyticView_rows d ++ [row] ∧
    pk row = new_pk ∧
    view_workspace_id row = workspace_id workspace.
Proof.
  unfold AnalyticViewViewset.perform_create.
  destruct (qs_get w WorkspaceTable _) as [log0 [e|workspace]] eqn:Hget;
    unfold bind; [discriminate|].
  apply qs_get_inv in Hget as (d & Hd & Hf & ->).
  unfold qs_filter, Workspace_objects in Hf.
  unfold serializer_save, AnalyticView_objects_create.
  rewrite Hd, save_workspace_id.
  destruct (bool_decide (new_pk ∈ pk <$> AnalyticView_rows d));
    [discriminate|].
  cbn. intros [= <- <-]. eexists d, workspace, _. split; [done|].
  split; [done|]. split; [|done].
  assert (workspace ∈ filter (λ ws, workspace_slug ws = slug) (Workspace_rows d))
    as Hin by (rewrite Hf; left).
  by apply list_elem_of_filter in Hin as [? _].
Qed.

Lemma perform_create_injects_workspace_witness :
  AnalyticViewViewset.perform_create Sample.world "v2"
    Sample.forged_serializer "acme"
  = ([Queried WorkspaceTable; Inserted AnalyticViewTable],
     inr Sample.db_after_create)
  ∧ ∃ d workspace row,
      database Sample.world = inr d ∧
      filter (λ ws, workspace_slug ws = "acme") (Workspace_rows d)
      = [workspace] ∧
      workspace_slug workspace = "acme" ∧
      AnalyticView_rows Sample.db_after_create
      = AnalyticView_rows d ++ [row] ∧
      pk row = "v2" ∧
      view_workspace_id row = workspace_id workspace.
Proof.
  assert (AnalyticViewViewset.perform_create Sample.world "v2"
            Sample.forged_serializer "acme"
          = ([Queried WorkspaceTable; Inserted AnalyticViewTable],
             inr Sample.db_after_create)) as H
    by (vm_compute; reflexivity).
  split; [exact H|].
  exact (perform_create_injects_workspace Sample.world "v2"
           Sample.forged_serializer "acme" _ Sample.db_after_create H).
Defined.

(** C8, as stated, fails when the broker is down: both axes are present,
    yet no job is enqueued and the answer is the generic error with status
    400. *)
Lemma export_fails_when_broker_is_down :
  let request := Sample.post_request Sample.export_body in
  request_data_get request "x_axis" (VBool false)
  = ret (VStr "state__group")
  ∧ request_data_get request "y_axis" (VBool false)
    = ret (VStr "issue_count")
  ∧ ExportAnalyticsEndpoint.post Sample.world_broker_down request "acme"
    = ([Captured Sample.broker_unreachable],
       mkResponse (error_body "Something went wrong please try again later")
         400%Z).
Proof. by vm_compute. Qed.

(** C8, amended: a POST on [ExportAnalyticsEndpoint] with both axes present
    enqueues, when publishing to the broker does not raise, exactly one
    export job carrying the email of the user, the raw payload and the slug,
    and answers 200 with a message naming that email; when publishing raises
    it enqueues nothing and answers the generic error; and no request to
    this endpoint queries the database. *)
Theorem export_enqueues_one_job w request slug :
  (∀ payload x_axis y_axis,
   data request = inr payload →
   request_data_get request "x_axis" (VBool false) = ret x_axis →
   request_data_get request "y_axis" (VBool false) = ret y_axis →
   truthy x_axis = true →
   truthy y_axis = true →
   (broker w = None →
    ExportAnalyticsEndpoint.post w request slug
    = ([Enqueued (email (user request)) payload slug],
       mkResponse
         (message_body
            ("Once the export is ready it will be emailed to you at "
             +:+ email (user request)))
         200%Z))
   ∧ (∀ e, broker w = Some e →
        ExportAnalyticsEndpoint.post w request slug
        = ([Captured e], generic_error)))
  ∧ ∀ t, Queried t ∉ (ExportAnalyticsEndpoint.post w request slug).1.
Proof.
  split.
  - intros payload x_axis y_axis Hdata Hx Hy Htx Hty.
    unfold request_data_get in Hx, Hy. rewrite Hdata in Hx, Hy.
    destruct payload as [| | | | |items]; try discriminate.
    injection Hx as <-. injection Hy as <-.
    rewrite (ExportAnalyticsEndpoint_post_valid _ _ items) by done.
    split; [by intros ->|]. by intros e ->.
  - intros t.
    destruct (data request) as [e|payload] eqn:Hdata.
    { rewrite (ExportAnalyticsEndpoint_post_unparsable _ _ e) by done.
      simpl. by intros [=]%list_elem_of_singleton. }
    destruct payload as [| | | | |items];
      try (rewrite (ExportAnalyticsEndpoint_post_not_object _ _ _ _ Hdata)
             by done;
           simpl; by intros [=]%list_elem_of_singleton).
    rewrite (ExportAnalyticsEndpoint_post_object _ _ items) by done.
    destruct (negb _ || negb _); [apply not_elem_of_nil|].
    destruct (broker w); simpl; by intros [=]%list_elem_of_singleton.
Qed.

Lemma export_enqueues_one_job_witness :
  let request := Sample.post_request Sample.export_body in
  ExportAnalyticsEndpoint.post Sample.world request "acme"
  = ([Enqueued "alice@acme.io" Sample.export_body "acme"],
     mkResponse
       (message_body
          "Once the export is ready it will be emailed to you at alice@acme.io")
       HTTP_200_OK).
Proof.
  apply (proj1 (export_enqueues_one_job Sample.world
                  (Sample.post_request Sample.export_body) "acme")
           Sample.export_body (VStr "state__group") (VStr "issue_count")).
  - reflexivity.
  - vm_compute. reflexivity.
  - vm_compute. reflexivity.
  - reflexivity.
  - reflexivity.
  - reflexivity.
Defined.

(** C9: in a successful response of [DefaultAnalyticsEndpoint],
    [most_issue_created_user] has one entry per creator of a row of the
    queryset, with the number of rows they created, and is sorted by that
    count in descending order: of two adjacent entries the earlier has a
    count at least that of the later. *)
Theorem most_issue_created_user_descending
    w request slug log total open mw mc :
  DefaultAnalyticsEndpoint.get w request slug
  = (log, mkResponse (default_body total open mw mc) HTTP_200_OK) →
  ∃ d, database w = inr d ∧
    let rows := DefaultAnalyticsEndpoint.queryset request slug d in
    (∀ i a b, mc !! i = Some a → mc !! S i = Some b → b.2 ≤ a.2) ∧
    (∀ e n, (e, n) ∈ mc ↔
       n = length (filter (λ i, email <$> created_by i = Some e) rows)
       ∧ 0 < n) ∧
    NoDup mc.*1.
Proof.
  intros Hget. apply DefaultAnalyticsEndpoint_get_ok in Hget.
  destruct Hget as (d & Hd & _ & _ & _ & ->).
  exists d. split; [done|]. simpl.
  unfold DefaultAnalyticsEndpoint.most_issue_created_user, qs_filter.
  rewrite omap_filter by (intros i; apply fmap_is_Some).
  set (rows := DefaultAnalyticsEndpoint.queryset request slug d).
  split; [|split].
  - intros i a b Ha Hb.
    eapply (Sorted_adjacent record_count_ge); [|done..].
    apply Sorted_merge_sort, _.
  - intros e n. rewrite merge_sort_Permutation.
    rewrite <- (occurrences_omap (λ i, email <$> created_by i)).
    apply group_count_spec.
  - rewrite merge_sort_Permutation. apply NoDup_group_count_fst.
Qed.

Lemma most_issue_created_user_descending_witness :
  DefaultAnalyticsEndpoint.get Sample.world (Sample.get_request []) "acme"
  = Sample.summary
  ∧ ∃ d, database Sample.world = inr d ∧
      let rows :=
        DefaultAnalyticsEndpoint.queryset (Sample.get_request []) "acme" d in
      let mc := Sample.expected_creators in
      (∀ i a b, mc !! i = Some a → mc !! S i = Some b → b.2 ≤ a.2) ∧
      (∀ e n, (e, n) ∈ mc ↔
         n = length (filter (λ i, email <$> created_by i = Some e) rows)
         ∧ 0 < n) ∧
      NoDup mc.*1.
Proof.
  split; [exact sample_summary|].
  exact (most_issue_created_user_descending Sample.world
           (Sample.get_request []) "acme" _ 4 1
           Sample.expected_months Sample.expected_creators sample_summary).
Defined.

(** C10: in a successful response of [DefaultAnalyticsEndpoint],
    [issue_completed_month_wise] has one entry per calendar month in which a
    row of the queryset was completed, with the number of rows completed in
    that month; its entries are in strictly ascending order of month; and
    the counts add up to the number of rows with a completion timestamp, so
    a row without one is in no bucket. *)
Theorem issue_completed_month_wise_buckets
    w request slug log total open mw mc :
  DefaultAnalyticsEndpoint.get w request slug
  = (log, mkResponse (default_body total open mw mc) HTTP_200_OK) →
  ∃ d, database w = inr d ∧
    let rows := DefaultAnalyticsEndpoint.queryset request slug d in
    NoDup mw.*1 ∧
    (∀ m n, (m, n) ∈ mw ↔
       n = length (filter (λ i, TruncMonth <$> completed_at i = Some m) rows)
       ∧ 0 < n) ∧
    (∀ m n, (m, n) ∈ mw → TruncMonth m = m) ∧
    (∀ i a b, mw !! i = Some a → mw !! S i = Some b →
       datetime_le a.1 b.1 ∧ a.1 ≠ b.1) ∧
    sum_list mw.*2 = length (filter (λ i, is_Some (completed_at i)) rows).
Proof.
  intros Hget. apply DefaultAnalyticsEndpoint_get_ok in Hget.
  destruct Hget as (d & Hd & _ & _ & -> & _).
  exists d. split; [done|]. simpl.
  unfold DefaultAnalyticsEndpoint.issue_completed_month_wise, qs_filter.
  rewrite omap_filter by (intros i; apply fmap_is_Some).
  set (rows := DefaultAnalyticsEndpoint.queryset request slug d).
  set (months := omap (λ i, TruncMonth <$> completed_at i) rows).
  assert (NoDup (merge_sort month_le (group_count months)).*1) as Hnd.
  { rewrite merge_sort_Permutation. apply NoDup_group_count_fst. }
  split; [done|]. split; [|split; [|split]].
  - intros m n. rewrite merge_sort_Permutation.
    rewrite <- (occurrences_omap (λ i, TruncMonth <$> completed_at i)).
    apply group_count_spec.
  - intros m n. rewrite merge_sort_Permutation.
    intros [Hin _]%elem_of_group_count.
    apply list_elem_of_omap in Hin as (i & _ & Hm).
    destruct (completed_at i) as [t|]; [|done].
    injection Hm as <-. apply TruncMonth_idemp.
  - intros i a b Ha Hb. split.
    + eapply (Sorted_adjacent month_le); [|done..].
      apply Sorted_merge_sort, _.
    + intros Hab.
      assert (i = S i); [|lia].
      eapply NoDup_lookup; [exact Hnd| |].
      * rewrite list_lookup_fmap, Ha. done.
      * rewrite list_lookup_fmap, Hb. simpl. by rewrite Hab.
  - rewrite merge_sort_Permutation, sum_group_count.
    unfold months. rewrite length_omap_is_Some.
    f_equal. apply list_filter_iff. intros i. apply fmap_is_Some.
Qed.

Lemma issue_completed_month_wise_buckets_witness :
  DefaultAnalyticsEndpoint.get Sample.world (Sample.get_request []) "acme"
  = Sample.summary
  ∧ ∃ d, database Sample.world = inr d ∧
      let rows :=
        DefaultAnalyticsEndpoint.queryset (Sample.get_request []) "acme" d in
      let mw := Sample.expected_months in
      NoDup mw.*1 ∧
      (∀ m n, (m, n) ∈ mw ↔
         n = length
               (filter (λ i, TruncMonth <$> completed_at i = Some m) rows)
         ∧ 0 < n) ∧
      (∀ m n, (m, n) ∈ mw → TruncMonth m = m) ∧
      (∀ i a b, mw !! i = Some a → mw !! S i = Some b →
         datetime_le a.1 b.1 ∧ a.1 ≠ b.1) ∧
      sum_list mw.*2 = length (filter (λ i, is_Some (completed_at i)) rows).
Proof.
  split; [exact sample_summary|].
  exact (issue_completed_month_wise_buckets Sample.world
           (Sample.get_request []) "acme" _ 4 1
           Sample.expected_months Sample.expected_creators sample_summary).
Defined.

(** * Further properties *)

(** ** The chart handler, path by path *)

Lemma render_colors_eq w d c :
  database w = inr d → render_colors w c = (render_log c, inr (rendered d c)).
Proof.
  intros Hd. destruct c as [|t key qs]; [done|].
  unfold render_colors, fetch. by rewrite Hd.
Qed.

Lemma AnalyticsEndpoint_get_up build_graph_plot w d request slug :
  truthy (QueryDict_get (GET request) "x_axis" (VBool false)) = true →
  truthy (QueryDict_get (GET request) "y_axis" (VBool false)) = true →
  malformed_id w request = None →
  database w = inr d →
  let x_axis := QueryDict_get (GET request) "x_axis" (VBool false) in
  let rows := AnalyticsEndpoint.queryset request slug d in
  let legend := AnalyticsEndpoint.colors request slug x_axis in
  AnalyticsEndpoint.get build_graph_plot w request slug
  = match build_graph_plot rows x_axis
            (QueryDict_get (GET request) "y_axis" (VBool false))
            (QueryDict_get (GET request) "segment" (VBool false)) with
    | inr distribution =>
        ([Queried IssueTable; Queried IssueTable] ++ render_log legend,
         mkResponse
           (analytics_body (length rows) distribution (rendered d legend))
           HTTP_200_OK)
    | inl e =>
        ([Queried IssueTable; Queried IssueTable; Captured e], generic_error)
    end.
Proof.
  intros Hx Hy Hm Hd. simpl.
  unfold AnalyticsEndpoint.get. rewrite Hx, Hy. cbn [negb orb].
  rewrite clean_filters, Hm. unfold qs_count, fetch. rewrite Hd.
  unfold bind, tell, ret, lift, try_except.
  destruct (build_graph_plot _ _ _ _) as [e|dist]; [done|].
  rewrite (render_colors_eq w d _ Hd). simpl. by rewrite app_nil_r.
Qed.

(** X1: a GET on [AnalyticsEndpoint] answers 200 exactly when both axes are
    given and truthy, no project, cycle or module id of the query string is
    refused by its key, the database answers, and the distribution builder
    returns; no other request succeeds. *)
Theorem AnalyticsEndpoint_succeeds_iff build_graph_plot w request slug :
  status (AnalyticsEndpoint.get build_graph_plot w request slug).2
  = HTTP_200_OK
  ↔ truthy (QueryDict_get (GET request) "x_axis" (VBool false)) = true
    ∧ truthy (QueryDict_get (GET request) "y_axis" (VBool false)) = true
    ∧ malformed_id w request = None
    ∧ ∃ d distribution,
        database w = inr d
        ∧ build_graph_plot (AnalyticsEndpoint.queryset request slug d)
            (QueryDict_get (GET request) "x_axis" (VBool false))
            (QueryDict_get (GET request) "y_axis" (VBool false))
            (QueryDict_get (GET request) "segment" (VBool false))
          = inr distribution.
Proof.
  destruct (truthy (QueryDict_get (GET request) "x_axis" (VBool false)))
    eqn:Hx; cycle 1.
  { unfold AnalyticsEndpoint.get. rewrite Hx. simpl. split; [done|].
    by intros [? _]. }
  destruct (truthy (QueryDict_get (GET request) "y_axis" (VBool false)))
    eqn:Hy; cycle 1.
  { unfold AnalyticsEndpoint.get. rewrite Hx, Hy. simpl. split; [done|].
    by intros (_ & ? & _). }
  destruct (malformed_id w request) as [e|] eqn:Hm.
  { rewrite (AnalyticsEndpoint_get_malformed _ _ _ _ _ Hx Hy Hm). simpl.
    split; [done|]. by intros (_ & _ & ? & _). }
  destruct (database w) as [e|d] eqn:Hd.
  { rewrite (AnalyticsEndpoint_get_down _ _ _ _ _ Hx Hy Hd). simpl.
    split; [done|]. by intros (_ & _ & _ & ? & ? & ? & _). }
  rewrite (AnalyticsEndpoint_get_up _ _ _ _ _ Hx Hy Hm Hd). simpl.
  destruct (build_graph_plot _ _ _ _) as [e|dist] eqn:Hplot; simpl.
  - split; [done|]. intros (_ & _ & _ & d' & dist & [= <-] & Hp). congruence.
  - split; [eauto 10|done].
Qed.

(** ** The colour legend *)

Lemma py_in_false v names : v ∉ VStr <$> names → py_in v names = false.
Proof.
  intros Hv. destruct v as [| | |s| |]; try done. simpl.
  apply bool_decide_eq_false. intros Hs. apply Hv.
  apply list_elem_of_fmap. eauto.
Qed.

Lemma filter_in_legend {A} (fk fp : A → string) d slug project_ids
    (rows : list A) :
  (if list_truthy project_ids
   then filter (λ x, fp x ∈ project_ids)
          (filter (λ x, workspace__slug d (fk x) slug) rows)
   else filter (λ x, workspace__slug d (fk x) slug) rows)
  = filter (λ x, in_legend d slug project_ids (fk x) (fp x)) rows.
Proof.
  destruct project_ids as [|p ps]; simpl.
  - apply list_filter_iff. intros x. unfold in_legend. naive_solver.
  - rewrite list_filter_filter. apply list_filter_iff. intros x.
    unfold in_legend. naive_solver.
Qed.

Lemma rendered_colors d request slug x_axis :
  let project_ids := getlist (GET request) "project" in
  rendered d (AnalyticsEndpoint.colors request slug x_axis)
  = if py_in x_axis ["labels__name"] then
      colors_values "name"
        (Label_values <$> legend_labels d slug project_ids)
    else if py_in x_axis ["state__name"; "state__group"] then
      let key := if py_eq_str x_axis "state__name" then "name" else "group" in
      colors_values key
        (State_values key <$> legend_states d slug project_ids)
    else colors_dict.
Proof.
  simpl. unfold AnalyticsEndpoint.colors, legend_states, legend_labels.
  rewrite <- !filter_in_legend.
  destruct (py_in x_axis ["labels__name"]),
    (py_in x_axis ["state__name"; "state__group"]),
    (list_truthy (getlist (GET request) "project")); reflexivity.
Qed.

Lemma render_log_colors request slug x_axis :
  render_log (AnalyticsEndpoint.colors request slug x_axis)
  = if py_in x_axis ["labels__name"] then [Queried LabelTable]
    else if py_in x_axis ["state__name"; "state__group"]
         then [Queried StateTable] else [].
Proof.
  unfold AnalyticsEndpoint.colors.
  destruct (py_in x_axis ["labels__name"]),
    (py_in x_axis ["state__name"; "state__group"]),
    (list_truthy (getlist (GET request) "project")); reflexivity.
Qed.

Lemma AnalyticsEndpoint_get_ok_legend build_graph_plot w request slug
    log total distribution colors :
  AnalyticsEndpoint.get build_graph_plot w request slug
  = (log, mkResponse (analytics_body total distribution colors) HTTP_200_OK) →
  ∃ d, database w = inr d ∧
    let legend :=
      AnalyticsEndpoint.colors request slug
        (QueryDict_get (GET request) "x_axis" (VBool false)) in
    colors = rendered d legend
    ∧ log = [Queried IssueTable; Queried IssueTable] ++ render_log legend.
Proof.
  intros Hget.
  destruct (truthy (QueryDict_get (GET request) "x_axis" (VBool false)))
    eqn:Hx; cycle 1.
  { unfold AnalyticsEndpoint.get in Hget. rewrite Hx in Hget. discriminate. }
  destruct (truthy (QueryDict_get (GET request) "y_axis" (VBool false)))
    eqn:Hy; cycle 1.
  { unfold AnalyticsEndpoint.get in Hget. rewrite Hx, Hy in Hget.
    discriminate. }
  destruct (malformed_id w request) as [e|] eqn:Hm.
  { rewrite (AnalyticsEndpoint_get_malformed _ _ _ _ _ Hx Hy Hm) in Hget.
    discriminate. }
  destruct (database w) as [e|d] eqn:Hd.
  { rewrite (AnalyticsEndpoint_get_down _ _ _ _ _ Hx Hy Hd) in Hget.
    discriminate. }
  rewrite (AnalyticsEndpoint_get_up _ _ _ _ _ Hx Hy Hm Hd) in Hget.
  simpl in Hget.
  destruct (build_graph_plot _ _ _ _) as [e|dist]; [discriminate|].
  injection Hget as Hlog Ht Hdist Hc. exists d. by subst.
Qed.

(** X2: in a successful response of [AnalyticsEndpoint] the colours are,
    for the axis [state__name] or [state__group], the name or the group of
    every state of the workspace with its colour, for the axis
    [labels__name] the name and colour of every label of the workspace,
    both narrowed to the projects asked for if any, whatever the cycle and
    module filters; for any other axis they are the empty dict and no
    legend is queried. *)
Theorem colour_legend build_graph_plot w request slug
    log total distribution colors :
  AnalyticsEndpoint.get build_graph_plot w request slug
  = (log, mkResponse (analytics_body total distribution colors) HTTP_200_OK) →
  ∃ d, database w = inr d ∧
    let x_axis := QueryDict_get (GET request) "x_axis" (VBool false) in
    let project_ids := getlist (GET request) "project" in
    (x_axis = VStr "state__name" →
     colors = colors_values "name"
                ((λ s, (state_name s, state_color s))
                   <$> legend_states d slug project_ids))
    ∧ (x_axis = VStr "state__group" →
       colors = colors_values "group"
                  ((λ s, (state_group s, state_color s))
                     <$> legend_states d slug project_ids))
    ∧ (x_axis = VStr "labels__name" →
       colors = colors_values "name"
                  ((λ l, (label_name l, label_color l))
                     <$> legend_labels d slug project_ids))
    ∧ (x_axis ∉ [VStr "state__name"; VStr "state__group"; VStr "labels__name"] →
       colors = colors_dict
       ∧ log = [Queried IssueTable; Queried IssueTable]).
Proof.
  intros Hget. apply AnalyticsEndpoint_get_ok_legend in Hget.
  destruct Hget as (d & Hd & Hc & Hlog). exists d. split; [done|].
  simpl in *. rewrite rendered_colors in Hc. rewrite render_log_colors in Hlog.
  split; [|split; [|split]].
  - intros Hx. rewrite Hx in Hc. exact Hc.
  - intros Hx. rewrite Hx in Hc. exact Hc.
  - intros Hx. rewrite Hx in Hc. exact Hc.
  - intros Hx. rewrite Hc, Hlog.
    rewrite !py_in_false; [done|..]; intros Hin; apply Hx; set_solver.
Qed.

Lemma colour_legend_witness :
  AnalyticsEndpoint.get (build_graph_plot Sample.state_group_axis)
    Sample.world Sample.chart_request "acme" = Sample.chart
  ∧ colors_values "group" [("started", "#f59e0b"); ("completed", "#16a34a")]
    = colors_values "group"
        ((λ s, (state_group s, state_color s))
           <$> legend_states Sample.db "acme" []).
Proof.
  assert (AnalyticsEndpoint.get (build_graph_plot Sample.state_group_axis)
            Sample.world Sample.chart_request "acme" = Sample.chart) as H
    by (vm_compute; reflexivity).
  split; [exact H|].
  destruct (colour_legend _ _ _ _ _ _ _ _ H) as (d & Hd & _ & Hgroup & _).
  injection Hd as <-. apply Hgroup. reflexivity.
Defined.

(** ** The saved chart handler, path by path *)

Lemma stored_param_missing_falsy view key :
  stored_param_missing view key →
  truthy (dict_get (query_dict view) key (VBool false)) = false.
Proof.
  unfold stored_param_missing, dict_get. intros H.
  destruct (query_dict view !! key) as [v|]; [|done]. by apply H.
Qed.

Lemma SavedAnalyticEndpoint_get_found Issue_objects_filter build_graph_plot
    w d view request slug analytic_id :
  database w = inr d →
  saved_view_lookup slug analytic_id d = [view] →
  SavedAnalyticEndpoint.get Issue_objects_filter build_graph_plot
    w request slug analytic_id
  = try_except
      (do_ tell (Queried AnalyticViewTable);
       do queryset <- lift (Issue_objects_filter (query view));
       let x_axis := dict_get (query_dict view) "x_axis" (VBool false) in
       let y_axis := dict_get (query_dict view) "y_axis" (VBool false) in
       if negb (truthy x_axis) || negb (truthy y_axis) then
         ret validation_error
       else
         do_ tell (Queried IssueTable);
         do distribution <-
           lift (build_graph_plot (queryset d) x_axis y_axis
                   (QueryDict_get (GET request) "segment" (VBool false)));
         do_ tell (Queried IssueTable);
         ret (mkResponse (saved_body (length (queryset d)) distribution)
                HTTP_200_OK))
      (λ e, match e with
            | DoesNotExist AnalyticViewTable =>
                ([], SavedAnalyticEndpoint.view_does_not_exist)
            | _ => (capture_exception e, generic_error)
            end).
Proof.
  intros Hd Hv. unfold SavedAnalyticEndpoint.get, qs_get, qs_count, fetch.
  unfold saved_view_lookup in Hv. rewrite Hd. cbn [bind tell ret app].
  rewrite Hv. cbn [bind tell ret lift app].
  destruct (Issue_objects_filter (query view)) as [e|qs]; [done|].
  destruct (negb _ || negb _); [done|].
  cbn [bind tell ret lift app].
  by destruct (build_graph_plot _ _ _ _).
Qed.

(** X4: when the saved view is found and its stored filter is accepted but
    its stored [x_axis] or [y_axis] is missing or falsy, a GET on
    [SavedAnalyticEndpoint] answers the validation error with status 400,
    having queried the view only. *)
Theorem saved_view_without_axes Issue_objects_filter build_graph_plot
    w d view queryset request slug analytic_id :
  database w = inr d →
  saved_view_lookup slug analytic_id d = [view] →
  Issue_objects_filter (query view) = inr queryset →
  stored_param_missing view "x_axis" ∨ stored_param_missing view "y_axis" →
  SavedAnalyticEndpoint.get Issue_objects_filter build_graph_plot
    w request slug analytic_id
  = ([Queried AnalyticViewTable],
     mkResponse (error_body "x-axis and y-axis dimensions are required")
       400%Z).
Proof.
  intros Hd Hv Hq Hxy.
  rewrite (SavedAnalyticEndpoint_get_found _ _ _ _ _ _ _ _ Hd Hv), Hq.
  cbn [bind lift tell ret app].
  replace (negb _ || negb _) with true; [done|].
  destruct Hxy as [H|H]; apply stored_param_missing_falsy in H; rewrite H;
    [done|]. by rewrite orb_true_r.
Qed.

Lemma saved_view_without_axes_witness :
  SavedAnalyticEndpoint.get Sample.stored_filter
    (build_graph_plot Sample.state_group_axis)
    Scenario.world (Sample.get_request []) "acme" "v9"
  = ([Queried AnalyticViewTable], validation_error).
Proof.
  apply (saved_view_without_axes Sample.stored_filter _ Scenario.world
           Scenario.db Scenario.draft
           (qs_filter_workspace__slug issue_workspace_id "acme" Issue_objects)).
  - reflexivity.
  - vm_compute. reflexivity.
  - vm_compute. reflexivity.
  - right. intros v Hv. vm_compute in Hv. discriminate.
Defined.

(** X5: [SavedAnalyticEndpoint] hands every exception other than
    [AnalyticView.DoesNotExist] to the error tracker once and answers the
    generic error: when the database raises, when the ORM rejects the
    stored filter (whether or not the stored axes are present: the filter
    is applied first), and when the distribution builder raises. *)
Theorem saved_view_reports_exceptions Issue_objects_filter build_graph_plot
    w request slug analytic_id e :
  e ≠ DoesNotExist AnalyticViewTable →
  (database w = inl e →
   SavedAnalyticEndpoint.get Issue_objects_filter build_graph_plot
     w request slug analytic_id
   = ([Captured e], generic_error))
  ∧ (∀ d view,
       database w = inr d →
       saved_view_lookup slug analytic_id d = [view] →
       Issue_objects_filter (query view) = inl e →
       SavedAnalyticEndpoint.get Issue_objects_filter build_graph_plot
         w request slug analytic_id
       = ([Queried AnalyticViewTable; Captured e], generic_error))
  ∧ (∀ d view queryset,
       database w = inr d →
       saved_view_lookup slug analytic_id d = [view] →
       Issue_objects_filter (query view) = inr queryset →
       truthy (dict_get (query_dict view) "x_axis" (VBool false)) = true →
       truthy (dict_get (query_dict view) "y_axis" (VBool false)) = true →
       build_graph_plot (queryset d)
         (dict_get (query_dict view) "x_axis" (VBool false))
         (dict_get (query_dict view) "y_axis" (VBool false))
         (QueryDict_get (GET request) "segment" (VBool false))
       = inl e →
       SavedAnalyticEndpoint.get Issue_objects_filter build_graph_plot
         w request slug analytic_id
       = ([Queried AnalyticViewTable; Queried IssueTable; Captured e],
          generic_error)).
Proof.
  intros He. split; [|split].
  - intros Hd. by apply SavedAnalyticEndpoint_get_down.
  - intros d view Hd Hv Hq.
    rewrite (SavedAnalyticEndpoint_get_found _ _ _ _ _ _ _ _ Hd Hv), Hq.
    cbn. by destruct e as [[]| | |].
  - intros d view qs Hd Hv Hq Hx Hy Hplot.
    rewrite (SavedAnalyticEndpoint_get_found _ _ _ _ _ _ _ _ Hd Hv), Hq.
    cbn [bind lift tell ret app].
    rewrite Hx, Hy, Hplot. cbn. by destruct e as [[]| | |].
Qed.

Lemma saved_view_reports_exceptions_witness :
  SavedAnalyticEndpoint.get Sample.stored_filter
    (build_graph_plot Sample.state_group_axis)
    Scenario.world (Sample.get_request []) "acme" "v8"
  = ([Queried AnalyticViewTable; Captured Scenario.field_error],
     generic_error).
Proof.
  apply (proj1 (proj2 (saved_view_reports_exceptions Sample.stored_filter
                         (build_graph_plot Sample.state_group_axis)
                         Scenario.world (Sample.get_request []) "acme" "v8"
                         Scenario.field_error ltac:(discriminate)))
           Scenario.db Scenario.stale).
  - reflexivity.
  - vm_compute. reflexivity.
  - vm_compute. reflexivity.
Defined.

(** X6: when the saved view is found, its filter accepted, its axes
    present and the builder returns, a GET on [SavedAnalyticEndpoint]
    answers 200 with the builder's distribution and, as total, the number
    of rows the stored filter selects: the workspace of the path scopes the
    lookup of the view, not the issues. *)
Theorem saved_view_chart Issue_objects_filter build_graph_plot
    w d view queryset distribution request slug analytic_id :
  database w = inr d →
  saved_view_lookup slug analytic_id d = [view] →
  Issue_objects_filter (query view) = inr queryset →
  truthy (dict_get (query_dict view) "x_axis" (VBool false)) = true →
  truthy (dict_get (query_dict view) "y_axis" (VBool false)) = true →
  build_graph_plot (queryset d)
    (dict_get (query_dict view) "x_axis" (VBool false))
    (dict_get (query_dict view) "y_axis" (VBool false))
    (QueryDict_get (GET request) "segment" (VBool false))
  = inr distribution →
  SavedAnalyticEndpoint.get Issue_objects_filter build_graph_plot
    w request slug analytic_id
  = ([Queried AnalyticViewTable; Queried IssueTable; Queried IssueTable],
     mkResponse (saved_body (length (queryset d)) distribution) 200%Z).
Proof.
  intros Hd Hv Hq Hx Hy Hplot.
  rewrite (SavedAnalyticEndpoint_get_found _ _ _ _ _ _ _ _ Hd Hv), Hq.
  cbn [bind lift tell ret app]. by rewrite Hx, Hy, Hplot.
Qed.

Lemma saved_view_chart_witness :
  SavedAnalyticEndpoint.get Sample.stored_filter
    (build_graph_plot Sample.state_group_axis)
    Sample.world (Sample.get_request []) "acme" "v1"
  = ([Queried AnalyticViewTable; Queried IssueTable; Queried IssueTable],
     mkResponse (saved_body 4 Sample.expected_distribution) 200%Z).
Proof.
  apply (saved_view_chart Sample.stored_filter
           (build_graph_plot Sample.state_group_axis) Sample.world Sample.db
           Sample.by_state
           (qs_filter_workspace__slug issue_workspace_id "acme" Issue_objects)
           Sample.expected_distribution).
  - reflexivity.
  - vm_compute. reflexivity.
  - vm_compute. reflexivity.
  - vm_compute. reflexivity.
  - vm_compute. reflexivity.
  - vm_compute. reflexivity.
Defined.

(** X3: with both axes present, [AnalyticsEndpoint] hands an exception of
    the id filters, of the database or of the distribution builder to the
    error tracker once and answers the generic error with status 400; an id
    that its key refuses is reported before the database is asked. *)
Theorem AnalyticsEndpoint_reports_exceptions build_graph_plot
    w request slug e :
  truthy (QueryDict_get (GET request) "x_axis" (VBool false)) = true →
  truthy (QueryDict_get (GET request) "y_axis" (VBool false)) = true →
  (database w = inl e →
   AnalyticsEndpoint.get build_graph_plot w request slug
   = ([Captured (default e (malformed_id w request))], generic_error))
  ∧ (∀ d, malformed_id w request = None →
       database w = inr d →
       build_graph_plot (AnalyticsEndpoint.queryset request slug d)
         (QueryDict_get (GET request) "x_axis" (VBool false))
         (QueryDict_get (GET request) "y_axis" (VBool false))
         (QueryDict_get (GET request) "segment" (VBool false))
       = inl e →
       AnalyticsEndpoint.get build_graph_plot w request slug
       = ([Queried IssueTable; Queried IssueTable; Captured e],
          generic_error))
  ∧ (malformed_id w request = Some e →
     AnalyticsEndpoint.get build_graph_plot w request slug
     = ([Captured e], generic_error)).
Proof.
  intros Hx Hy. split; [|split].
  - by apply AnalyticsEndpoint_get_down.
  - intros d Hm Hd Hplot.
    rewrite (AnalyticsEndpoint_get_up _ _ _ _ _ Hx Hy Hm Hd). simpl.
    by rewrite Hplot.
  - by apply AnalyticsEndpoint_get_malformed.
Qed.

Lemma AnalyticsEndpoint_reports_exceptions_witness :
  AnalyticsEndpoint.get (build_graph_plot Sample.state_group_axis)
    Sample.world_database_down Sample.chart_request "acme"
  = ([Captured Sample.connection_refused], generic_error)
  ∧ AnalyticsEndpoint.get Scenario.failing_plot
      Sample.world Sample.chart_request "acme"
    = ([Queried IssueTable; Queried IssueTable;
        Captured (OtherException "ProgrammingError")],
       generic_error)
  ∧ AnalyticsEndpoint.get (build_graph_plot Sample.state_group_axis)
      Scenario.world_uuid_keys Scenario.malformed_chart_request "acme"
    = ([Captured Scenario.invalid_uuid], generic_error).
Proof.
  split; [|split].
  - apply (proj1 (AnalyticsEndpoint_reports_exceptions
                    (build_graph_plot Sample.state_group_axis)
                    Sample.world_database_down Sample.chart_request "acme"
                    Sample.connection_refused eq_refl eq_refl)).
    reflexivity.
  - apply (proj1 (proj2 (AnalyticsEndpoint_reports_exceptions
                           Scenario.failing_plot Sample.world
                           Sample.chart_request "acme"
                           (OtherException "ProgrammingError")
                           eq_refl eq_refl)) Sample.db);
      reflexivity.
  - apply (proj2 (proj2 (AnalyticsEndpoint_reports_exceptions
                           (build_graph_plot Sample.state_group_axis)
                           Scenario.world_uuid_keys
                           Scenario.malformed_chart_request "acme"
                           Scenario.invalid_uuid eq_refl eq_refl))).
    reflexivity.
Defined.

(** ** Creating and finding a saved view *)

Lemma workspace__slug_elem d wid slug :
  workspace__slug d wid slug →
  ∃ ws, ws ∈ Workspace_rows d ∧ workspace_id ws = wid
        ∧ workspace_slug ws = slug.
Proof.
  unfold workspace__slug, workspace_of.
  destruct (filter (λ ws, workspace_id ws = wid) (Workspace_rows d))
    as [|ws l] eqn:Hf; [done|].
  simpl. intros [= <-].
  assert (ws ∈ filter (λ ws, workspace_id ws = wid) (Workspace_rows d)) as Hin
    by (rewrite Hf; left).
  apply list_elem_of_filter in Hin as [? ?]. eauto.
Qed.

Lemma workspace__slug_functional d wid slug slug' :
  workspace__slug d wid slug → workspace__slug d wid slug' → slug = slug'.
Proof. unfold workspace__slug. congruence. Qed.

Lemma filter_key_unique {A K} `{EqDecision K} (f : A → K) (l : list A) x :
  NoDup (f <$> l) → x ∈ l → filter (λ y, f y = f x) l = [x].
Proof.
  induction l as [|y l IH]; csimpl; intros Hnd Hx;
    [by apply elem_of_nil in Hx|].
  apply NoDup_cons in Hnd as [Hy Hnd]. rewrite filter_cons.
  apply elem_of_cons in Hx as [->|Hx].
  - rewrite decide_True by done. f_equal. apply filter_none.
    intros z Hz Hfz. apply Hy. rewrite <- Hfz.
    apply list_elem_of_fmap. eauto.
  - rewrite decide_False; [by apply IH|].
    intros Hfy. apply Hy. rewrite Hfy. apply list_elem_of_fmap. eauto.
Qed.

Lemma workspace__slug_of_row d ws :
  workspace_ids_unique d → ws ∈ Workspace_rows d →
  workspace__slug d (workspace_id ws) (workspace_slug ws).
Proof.
  intros Hu Hin. unfold workspace__slug, workspace_of.
  by rewrite (filter_key_unique workspace_id _ ws Hu Hin).
Qed.

Lemma perform_create_inv w new_pk serializer slug log d' :
  AnalyticViewViewset.perform_create w new_pk serializer slug = (log, inr d') →
  ∃ d workspace row,
    database w = inr d
    ∧ workspace ∈ Workspace_rows d
    ∧ workspace_slug workspace = slug
    ∧ (new_pk ∉ pk <$> AnalyticView_rows d)
    ∧ AnalyticView_rows d' = AnalyticView_rows d ++ [row]
    ∧ Workspace_rows d' = Workspace_rows d
    ∧ pk row = new_pk
    ∧ view_workspace_id row = workspace_id workspace
    ∧ log = [Queried WorkspaceTable; Inserted AnalyticViewTable].
Proof.
  unfold AnalyticViewViewset.perform_create.
  destruct (qs_get w WorkspaceTable _) as [log0 [e|workspace]] eqn:Hget;
    unfold bind; [discriminate|].
  apply qs_get_inv in Hget as (d & Hd & Hf & ->).
  unfold qs_filter, Workspace_objects in Hf.
  assert (workspace ∈ filter (λ ws, workspace_slug ws = slug) (Workspace_rows d))
    as Hin by (rewrite Hf; left).
  apply list_elem_of_filter in Hin as [Hslug Hin].
  unfold serializer_save, AnalyticView_objects_create.
  rewrite Hd, save_workspace_id.
  destruct (bool_decide (new_pk ∈ pk <$> AnalyticView_rows d)) eqn:Hpk;
    [discriminate|].
  apply bool_decide_eq_false in Hpk.
  cbn. intros [= <- <-]. eexists d, workspace, _. by repeat split.
Qed.

Lemma SavedAnalyticEndpoint_get_none
    Issue_objects_filter build_graph_plot w d request slug analytic_id :
  database w = inr d →
  saved_view_lookup slug analytic_id d = [] →
  SavedAnalyticEndpoint.get Issue_objects_filter build_graph_plot
    w request slug analytic_id
  = ([Queried AnalyticViewTable], SavedAnalyticEndpoint.view_does_not_exist).
Proof.
  intros Hd Hnone. unfold SavedAnalyticEndpoint.get, qs_get, fetch.
  unfold saved_view_lookup in Hnone. by rewrite Hd, Hnone.
Qed.

(** X7: a create under a slug that no workspace has raises
    [Workspace.DoesNotExist] out of [perform_create] after the one lookup:
    nothing is inserted. *)
Theorem perform_create_unknown_slug w d new_pk serializer slug :
  database w = inr d →
  (∀ ws, ws ∈ Workspace_rows d → workspace_slug ws ≠ slug) →
  AnalyticViewViewset.perform_create w new_pk serializer slug
  = ([Queried WorkspaceTable], inl (DoesNotExist WorkspaceTable)).
Proof.
  intros Hd Hnone.
  unfold AnalyticViewViewset.perform_create, qs_get, fetch, qs_filter,
    Workspace_objects.
  rewrite Hd, filter_none; [done|]. intros ws Hws. by apply Hnone.
Qed.

Lemma perform_create_unknown_slug_witness :
  AnalyticViewViewset.perform_create Sample.world "v2"
    Sample.forged_serializer "initech"
  = ([Queried WorkspaceTable], inl (DoesNotExist WorkspaceTable)).
Proof.
  apply (perform_create_unknown_slug Sample.world Sample.db).
  - reflexivity.
  - apply Forall_forall. apply (bool_decide_unpack _).
    vm_compute. exact I.
Defined.

(** X8: where workspace ids are unique, the view a successful
    [perform_create] stores is the one view [SavedAnalyticEndpoint] finds
    under the slug and key of the create, and under any other slug the
    same key is answered "Analytic View Does not exist". *)
Theorem created_view_is_scoped Issue_objects_filter build_graph_plot
    w new_pk serializer slug log d' :
  (∀ d, database w = inr d → workspace_ids_unique d) →
  AnalyticViewViewset.perform_create w new_pk serializer slug = (log, inr d') →
  ∃ row,
    row ∈ AnalyticView_rows d'
    ∧ saved_view_lookup slug new_pk d' = [row]
    ∧ ∀ request slug',
        slug' ≠ slug →
        SavedAnalyticEndpoint.get Issue_objects_filter build_graph_plot
          (with_database w d') request slug' new_pk
        = ([Queried AnalyticViewTable],
           SavedAnalyticEndpoint.view_does_not_exist).
Proof.
  intros Hu Hcreate. apply perform_create_inv in Hcreate.
  destruct Hcreate
    as (d & ws & row & Hd & Hws & Hslug & Hfresh & Hrows & Hwss & Hpk & Hwid & _).
  specialize (Hu d Hd).
  assert (∀ s, workspace__slug d' (view_workspace_id row) s ↔ s = slug)
    as Hscope.
  { assert (workspace__slug d' (workspace_id ws) slug) as Hbase.
    { unfold workspace__slug, workspace_of. rewrite Hwss.
      rewrite <- Hslug. by apply workspace__slug_of_row. }
    intros s. rewrite Hwid. split; [|by intros ->].
    intros Hs. by eapply workspace__slug_functional. }
  assert (filter (λ v, pk v = new_pk) (AnalyticView_rows d') = [row]) as Hfound.
  { rewrite Hrows, filter_app, filter_none.
    - simpl. rewrite filter_cons, decide_True by done. done.
    - intros v Hv Hpkv. apply Hfresh. rewrite <- Hpkv.
      apply list_elem_of_fmap. eauto. }
  exists row. split; [rewrite Hrows; set_solver|]. split.
  - unfold saved_view_lookup, qs_filter_workspace__slug, qs_filter,
      AnalyticView_objects.
    rewrite Hfound, filter_cons, decide_True; [done|]. by apply Hscope.
  - intros request slug' Hne.
    apply (SavedAnalyticEndpoint_get_none _ _ _ d'); [done|].
    unfold saved_view_lookup, qs_filter_workspace__slug, qs_filter,
      AnalyticView_objects.
    rewrite Hfound, filter_cons, decide_False; [done|].
    intros Hs. by apply Hscope in Hs.
Qed.

Lemma created_view_is_scoped_witness :
  AnalyticViewViewset.perform_create Sample.world "v2"
    Sample.forged_serializer "acme"
  = ([Queried WorkspaceTable; Inserted AnalyticViewTable],
     inr Sample.db_after_create)
  ∧ ∃ row,
      row ∈ AnalyticView_rows Sample.db_after_create
      ∧ saved_view_lookup "acme" "v2" Sample.db_after_create = [row]
      ∧ ∀ request slug',
          slug' ≠ "acme" →
          SavedAnalyticEndpoint.get Sample.stored_filter
            (build_graph_plot Sample.state_group_axis)
            (with_database Sample.world Sample.db_after_create)
            request slug' "v2"
          = ([Queried AnalyticViewTable],
             SavedAnalyticEndpoint.view_does_not_exist).
Proof.
  assert (AnalyticViewViewset.perform_create Sample.world "v2"
            Sample.forged_serializer "acme"
          = ([Queried WorkspaceTable; Inserted AnalyticViewTable],
             inr Sample.db_after_create)) as H
    by (vm_compute; reflexivity).
  split; [exact H|].
  apply (created_view_is_scoped Sample.stored_filter
           (build_graph_plot Sample.state_group_axis) Sample.world "v2"
           Sample.forged_serializer "acme"
           [Queried WorkspaceTable; Inserted AnalyticViewTable]
           Sample.db_after_create);
    [|exact H].
  intros d Hd. injection Hd as <-.
  apply (bool_decide_unpack _). vm_compute. exact I.
Defined.

(** ** The dashboard summary *)

(** X9: in a successful response of [DefaultAnalyticsEndpoint] the counts
    of [most_issue_created_user] add up to the number of rows that have a
    creator, and neither they nor the counts of
    [issue_completed_month_wise] add up to more than [total_issues]. *)
Theorem summary_counts_are_bounded w request slug log total open mw mc :
  DefaultAnalyticsEndpoint.get w request slug
  = (log, mkResponse (default_body total open mw mc) HTTP_200_OK) →
  ∃ d, database w = inr d ∧
    let rows := DefaultAnalyticsEndpoint.queryset request slug d in
    sum_list mc.*2 = length (filter (λ i, is_Some (created_by i)) rows)
    ∧ sum_list mc.*2 ≤ total
    ∧ sum_list mw.*2 ≤ total.
Proof.
  intros Hget. apply DefaultAnalyticsEndpoint_get_ok in Hget.
  destruct Hget as (d & Hd & -> & _ & -> & ->).
  exists d. split; [done|]. simpl.
  unfold DefaultAnalyticsEndpoint.most_issue_created_user,
    DefaultAnalyticsEndpoint.issue_completed_month_wise, qs_filter.
  rewrite !merge_sort_Permutation, !sum_group_count.
  rewrite !omap_filter by (intros i; apply fmap_is_Some).
  rewrite !length_omap_is_Some.
  split; [|split].
  - f_equal. apply list_filter_iff. intros i. apply fmap_is_Some.
  - apply length_filter.
  - apply length_filter.
Qed.

Lemma summary_counts_are_bounded_witness :
  DefaultAnalyticsEndpoint.get Sample.world (Sample.get_request []) "acme"
  = Sample.summary
  ∧ ∃ d, database Sample.world = inr d ∧
      let rows :=
        DefaultAnalyticsEndpoint.queryset (Sample.get_request []) "acme" d in
      sum_list Sample.expected_creators.*2
      = length (filter (λ i, is_Some (created_by i)) rows)
      ∧ sum_list Sample.expected_creators.*2 ≤ 4
      ∧ sum_list Sample.expected_months.*2 ≤ 4.
Proof.
  split; [exact sample_summary|].
  exact (summary_counts_are_bounded Sample.world (Sample.get_request [])
           "acme" _ 4 1 Sample.expected_months Sample.expected_creators
           sample_summary).
Defined.

(** X10: a GET on [DefaultAnalyticsEndpoint] answers 200 exactly when no
    project, cycle or module id of the query string is refused by its key
    and the database answers, whatever the slug and the rest of the query
    string, and then it has sent four queries, all on issues; an id that is
    refused is printed and answered with the generic error before any
    query. *)
Theorem DefaultAnalyticsEndpoint_succeeds_iff w request slug :
  (status (DefaultAnalyticsEndpoint.get w request slug).2 = HTTP_200_OK
   ↔ malformed_id w request = None ∧ ∃ d, database w = inr d)
  ∧ (status (DefaultAnalyticsEndpoint.get w request slug).2 = HTTP_200_OK →
     (DefaultAnalyticsEndpoint.get w request slug).1
     = replicate 4 (Queried IssueTable))
  ∧ (∀ e, malformed_id w request = Some e →
       DefaultAnalyticsEndpoint.get w request slug
       = ([Printed e], generic_error)).
Proof.
  split; [|split].
  - destruct (malformed_id w request) as [e|] eqn:Hm.
    { rewrite (DefaultAnalyticsEndpoint_get_malformed _ _ _ _ Hm). simpl.
      split; [done|]. by intros [? _]. }
    destruct (database w) as [e|d] eqn:Hd.
    + rewrite (DefaultAnalyticsEndpoint_get_down _ _ _ _ Hd). simpl.
      split; [done|]. by intros [_ [? ?]].
    + rewrite (DefaultAnalyticsEndpoint_get_up _ _ _ _ Hm Hd). simpl.
      split; eauto.
  - destruct (malformed_id w request) as [e|] eqn:Hm.
    { by rewrite (DefaultAnalyticsEndpoint_get_malformed _ _ _ _ Hm). }
    destruct (database w) as [e|d] eqn:Hd.
    + by rewrite (DefaultAnalyticsEndpoint_get_down _ _ _ _ Hd).
    + by rewrite (DefaultAnalyticsEndpoint_get_up _ _ _ _ Hm Hd).
  - intros e Hm. by apply DefaultAnalyticsEndpoint_get_malformed.
Qed.

Lemma DefaultAnalyticsEndpoint_succeeds_iff_witness :
  (status (DefaultAnalyticsEndpoint.get Scenario.world_uuid_keys
             Scenario.project_summary_request "acme").2
   = HTTP_200_OK
   ∧ (DefaultAnalyticsEndpoint.get Scenario.world_uuid_keys
        Scenario.project_summary_request "acme").1
     = replicate 4 (Queried IssueTable))
  ∧ DefaultAnalyticsEndpoint.get Scenario.world_uuid_keys
      Scenario.malformed_summary_request "acme"
    = ([Printed Scenario.invalid_uuid], generic_error).
Proof.
  split.
  - assert (status (DefaultAnalyticsEndpoint.get Scenario.world_uuid_keys
                      Scenario.project_summary_request "acme").2
            = HTTP_200_OK) as H.
    { apply (proj1 (DefaultAnalyticsEndpoint_succeeds_iff
                      Scenario.world_uuid_keys
                      Scenario.project_summary_request "acme")).
      split; [reflexivity|]. exists Sample.db. reflexivity. }
    split; [exact H|].
    exact (proj1 (proj2 (DefaultAnalyticsEndpoint_succeeds_iff
                           Scenario.world_uuid_keys
                           Scenario.project_summary_request "acme")) H).
  - apply (proj2 (proj2 (DefaultAnalyticsEndpoint_succeeds_iff
                           Scenario.world_uuid_keys
                           Scenario.malformed_summary_request "acme"))).
    reflexivity.
Defined.

Lemma related_in_nil rel ids (qs : QuerySet Issue) d :
  qs d = [] → qs_filter_related_in rel ids qs d = [].
Proof. unfold qs_filter_related_in. by intros ->. Qed.

Lemma queryset_unknown_slug d slug :
  (∀ ws, ws ∈ Workspace_rows d → workspace_slug ws ≠ slug) →
  qs_filter_workspace__slug issue_workspace_id slug Issue_objects d = [].
Proof.
  intros Hnone. unfold qs_filter_workspace__slug. apply filter_none.
  intros i _ Hi. apply workspace__slug_elem in Hi as (ws & Hws & _ & Hs).
  by apply (Hnone ws).
Qed.

Lemma DefaultAnalyticsEndpoint_queryset_nil request slug d :
  qs_filter_workspace__slug issue_workspace_id slug Issue_objects d = [] →
  DefaultAnalyticsEndpoint.queryset request slug d = [].
Proof.
  intros Hnil. unfold DefaultAnalyticsEndpoint.queryset.
  destruct (list_truthy (getlist (GET request) "project")),
    (list_truthy (getlist (GET request) "cycle")),
    (list_truthy (getlist (GET request) "module")); simpl;
    repeat (apply related_in_nil); unfold qs_filter; by rewrite ?Hnil.
Qed.

(** X11: for a slug that no workspace has, and ids that their keys accept,
    [DefaultAnalyticsEndpoint] answers 200 with zero totals and empty lists,
    not an error. *)
Theorem summary_of_unknown_workspace w d request slug :
  malformed_id w request = None →
  database w = inr d →
  (∀ ws, ws ∈ Workspace_rows d → workspace_slug ws ≠ slug) →
  DefaultAnalyticsEndpoint.get w request slug
  = (replicate 4 (Queried IssueTable),
     mkResponse (default_body 0 0 [] []) 200%Z).
Proof.
  intros Hm Hd Hnone.
  rewrite (DefaultAnalyticsEndpoint_get_up _ _ _ _ Hm Hd).
  simpl.
  unfold DefaultAnalyticsEndpoint.open_issues,
    DefaultAnalyticsEndpoint.issue_completed_month_wise,
    DefaultAnalyticsEndpoint.most_issue_created_user, qs_filter.
  by rewrite (DefaultAnalyticsEndpoint_queryset_nil request slug d
                (queryset_unknown_slug d slug Hnone)).
Qed.

Lemma summary_of_unknown_workspace_witness :
  DefaultAnalyticsEndpoint.get Scenario.world_uuid_keys
    Scenario.project_summary_request "initech"
  = (replicate 4 (Queried IssueTable),
     mkResponse (default_body 0 0 [] []) 200%Z).
Proof.
  apply (summary_of_unknown_workspace Scenario.world_uuid_keys Sample.db).
  - reflexivity.
  - reflexivity.
  - apply Forall_forall. apply (bool_decide_unpack _).
    vm_compute. exact I.
Defined.

(** ** Rows and issues *)

Lemma related_in_single (rel : Issue → list string) (ids : list string)
    (l : list Issue) :
  (∀ i, i ∈ l → length (rel i) ≤ 1) →
  (l ≫= λ i, (λ _, i) <$> filter (λ c, c ∈ ids) (rel i))
  = filter (λ i, Exists (λ c, c ∈ ids) (rel i)) l.
Proof.
  induction l as [|i l IH]; intros Hl; [done|].
  rewrite bind_cons, filter_cons, IH by (intros; apply Hl; by right).
  assert (length (rel i) ≤ 1) as Hi by (apply Hl; left).
  destruct (rel i) as [|c [|c' r]]; [| |simpl in Hi; lia].
  - rewrite decide_False; [done|]. by intros ?%Exists_nil.
  - rewrite filter_cons. destruct (decide (c ∈ ids)) as [Hc|Hc].
    + rewrite decide_True; [done|]. by left.
    + rewrite decide_False; [done|].
      intros [?|?%Exists_nil]%Exists_cons; done.
Qed.

Lemma distinct_issues_filter d (P : Issue → Prop) `{!∀ x, Decision (P x)} l :
  distinct_issues d l → distinct_issues d (filter P l).
Proof.
  intros [Hnd Hsub]. split; [by apply NoDup_filter|].
  intros i [_ Hi]%list_elem_of_filter. by apply Hsub.
Qed.

Lemma distinct_issues_related d rel ids (qs : QuerySet Issue) :
  (∀ i, i ∈ Issue_rows d → length (rel i) ≤ 1) →
  distinct_issues d (qs d) →
  distinct_issues d (qs_filter_related_in rel ids qs d).
Proof.
  intros Hrel Hqs. unfold qs_filter_related_in.
  rewrite related_in_single by (intros i Hi; apply Hrel; by apply Hqs).
  by apply distinct_issues_filter.
Qed.

Lemma distinct_issues_queryset d slug
    (project_ids cycle_ids module_ids : list string) :
  NoDup (Issue_rows d) → single_links d →
  let queryset :=
    qs_filter_workspace__slug issue_workspace_id slug Issue_objects in
  let queryset :=
    if list_truthy project_ids
    then qs_filter (λ i, project_id i ∈ project_ids) queryset
    else queryset in
  let queryset :=
    if list_truthy cycle_ids
    then qs_filter_related_in issue_cycle cycle_ids queryset
    else queryset in
  let queryset :=
    if list_truthy module_ids
    then qs_filter_related_in issue_module module_ids queryset
    else queryset in
  distinct_issues d (queryset d).
Proof.
  intros Hnd Hsingle. simpl.
  assert (distinct_issues d
            (qs_filter_workspace__slug issue_workspace_id slug Issue_objects d))
    as H0.
  { unfold qs_filter_workspace__slug. by apply distinct_issues_filter. }
  assert (∀ i, i ∈ Issue_rows d → length (issue_cycle i) ≤ 1) as Hc
    by (intros i Hi; by apply Hsingle).
  assert (∀ i, i ∈ Issue_rows d → length (issue_module i) ≤ 1) as Hm
    by (intros i Hi; by apply Hsingle).
  destruct (list_truthy project_ids), (list_truthy cycle_ids),
    (list_truthy module_ids);
    repeat (apply distinct_issues_related; [done|]);
    try done; unfold qs_filter; by apply distinct_issues_filter.
Qed.

(** X12: where the issue rows are distinct and every issue is linked to at
    most one cycle and at most one module, the querysets of
    [AnalyticsEndpoint] and [DefaultAnalyticsEndpoint] hold no issue
    twice, so their totals count issues. *)
Theorem single_links_count_issues_once d request slug :
  NoDup (Issue_rows d) → single_links d →
  NoDup (AnalyticsEndpoint.queryset request slug d)
  ∧ NoDup (DefaultAnalyticsEndpoint.queryset request slug d).
Proof.
  intros Hnd Hsingle.
  split; by apply (distinct_issues_queryset d slug _ _ _ Hnd Hsingle).
Qed.

Lemma single_links_count_issues_once_witness :
  NoDup (AnalyticsEndpoint.queryset
           (Sample.get_request [("module", "m1"); ("module", "m2")])
           "acme" Scenario.db)
  ∧ NoDup (DefaultAnalyticsEndpoint.queryset
             (Sample.get_request [("module", "m1"); ("module", "m2")])
             "acme" Scenario.db).
Proof.
  apply (single_links_count_issues_once Scenario.db).
  - apply NoDup_ListNoDup. repeat constructor; simpl; intuition discriminate.
  - unfold single_links. apply Forall_forall. simpl.
    repeat constructor; simpl; lia.
Defined.

(** ** The views of a workspace *)

(** X13: as long as the filter backends only narrow a queryset, every
    view [AnalyticViewViewset.get_queryset] returns is a view of the
    workspace of the path, and is returned under no other slug. *)
Theorem get_queryset_is_scoped filter_queryset slug d v :
  narrows filter_queryset →
  v ∈ AnalyticViewViewset.get_queryset filter_queryset slug d →
  v ∈ AnalyticView_rows d
  ∧ workspace__slug d (view_workspace_id v) slug
  ∧ ∀ filter_queryset' slug',
      narrows filter_queryset' → slug' ≠ slug →
      v ∉ AnalyticViewViewset.get_queryset filter_queryset' slug' d.
Proof.
  intros Hn Hv. apply Hn in Hv.
  apply elem_of_qs_filter_workspace__slug in Hv as [Hslug Hv].
  split; [done|]. split; [done|].
  intros fq' slug' Hn' Hne Hv'. apply Hn' in Hv'.
  apply elem_of_qs_filter_workspace__slug in Hv' as [Hslug' _].
  apply Hne. by eapply workspace__slug_functional.
Qed.

Lemma get_queryset_is_scoped_witness :
  Sample.by_state ∈ AnalyticView_rows Sample.db
  ∧ workspace__slug Sample.db (view_workspace_id Sample.by_state) "acme"
  ∧ ∀ filter_queryset' slug',
      narrows filter_queryset' → slug' ≠ "acme" →
      Sample.by_state
      ∉ AnalyticViewViewset.get_queryset filter_queryset' slug' Sample.db.
Proof.
  apply (get_queryset_is_scoped Scenario.no_backend "acme" Sample.db
           Sample.by_state).
  - intros qs d v Hv. exact Hv.
  - assert (AnalyticViewViewset.get_queryset Scenario.no_backend "acme"
              Sample.db = [Sample.by_state]) as ->
      by (vm_compute; reflexivity).
    left.
Defined.
